(** * botzen: the input-simulation and browser-automation facades

    A shallow embedding of [src/botzen/automation/io/core.py] and
    [src/botzen/automation/web/core.py].

    Both files are thin wrappers over external libraries (pyautogui,
    pyscreeze, keyboard, playwright).  The external calls are modelled as
    operations on an explicit world: a clock, a log of the calls made (each
    stamped with the clock value at which it was issued) and oracles that
    say what the outside answers.  Python exceptions are an explicit
    outcome, and [while True] loops carry fuel.

    Times ([time.time()], [time.sleep], timeouts, waits) are exact
    rationals: the comparisons of the source are kept, the rounding of
    floats is not modelled. *)

From Stdlib Require Import ZArith QArith Qround Lqa Lia List String Bool.
From Stdlib Require Import Ascii DecimalString.
Import ListNotations.

Set Implicit Arguments.

(** ** A fragment of the Python runtime *)

Module Py.

Inductive Exn : Type :=
| AssertionError (msg : string)
| ValueError (msg : string)
| TypeError (msg : string)
| AttributeError (attr : string)
| ImageNotFoundException
| PlaywrightError (msg : string)
| UserError (name : string).

(** What a call can end in: a value, a raised exception, or the fuel of
    an unbounded loop running out. *)
Inductive Outcome (A : Type) : Type :=
| Done (a : A)
| Raise (e : Exn)
| OutOfFuel.

Arguments Raise {A} e.
Arguments OutOfFuel {A}.

(** Statements run in a state [S] and may raise. *)
Definition M (S A : Type) : Type := S -> Outcome A * S.

Definition ret {S A} (a : A) : M S A := fun s => (Done a, s).

Definition bind {S A B} (m : M S A) (k : A -> M S B) : M S B :=
  fun s =>
    match m s with
    | (Done a, s') => k a s'
    | (Raise e, s') => (Raise e, s')
    | (OutOfFuel, s') => (OutOfFuel, s')
    end.

Definition raise {S A} (e : Exn) : M S A := fun s => (Raise e, s).

Definition diverge {S A} : M S A := fun s => (OutOfFuel, s).

(** [try: m  except <handles>: h] *)
Definition try_except {S A} (m : M S A) (handles : Exn -> bool) (h : M S A)
  : M S A :=
  fun s =>
    match m s with
    | (Raise e, s') => if handles e then h s' else (Raise e, s')
    | r => r
    end.

(** [assert c, msg] *)
Definition assert_ {S} (c : bool) (msg : string) : M S unit :=
  if c then ret tt else raise (AssertionError msg).

(** [for _ in range(n): body], for the [n] iterations [range] yields. *)
Fixpoint for_each {S} (n : nat) (body : M S unit) : M S unit :=
  match n with
  | O => ret tt
  | Datatypes.S k => bind body (fun _ => for_each k body)
  end.

(** [range(n)] yields nothing when [n] is negative. *)
Definition range_len (n : Z) : nat := Z.to_nat n.

(** [bool(f)] of a function or bound method object: always [True]. *)
Definition bool_of_method {A B} (f : A -> B) : bool := true.

Declare Scope py_scope.
Delimit Scope py_scope with py.

Notation "x <- m ;; k" := (bind m (fun x => k))
  (at level 100, m at next level, right associativity) : py_scope.
Notation "m ;;; k" := (bind m (fun _ => k))
  (at level 100, right associativity) : py_scope.

End Py.

(** ** [src/botzen/automation/io/core.py] *)

Module IOCore.
Import Py.
Local Open Scope py_scope.

(** [pyscreeze.Box] and [pyscreeze.Point]. *)
Record Box : Type := mkBox { left : Z; top : Z; width : Z; height : Z }.
Record Point : Type := mkPoint { px : Z; py : Z }.

(** The calls into pyautogui and [time] that change the outside. *)
Inductive Call : Type :=
| Sleep (secs : Q)
| LocateOnScreen (path : string)
| MoveTo (p : Point)
| Click (x y : option Z) (button : string) (clicks : Z).

(** The world: the clock, the calls made so far (oldest first, each with
    the clock value when it was issued), and what the outside does:
    what is on the screen at a given time, by how much a sleep overruns,
    how long a screen search and a pointer action take. *)
Record World : Type := mkWorld {
  now : Q;
  log : list (Q * Call);
  screen : string -> Q -> option Box;
  sleep_lag : Q -> Q;
  locate_cost : Q -> Q;
  pointer_cost : Q -> Q
}.

(** Issue call [c], which takes [d] seconds. *)
Definition issue (c : Call) (d : Q) (w : World) : World :=
  {| now := now w + d;
     log := log w ++ [(now w, c)];
     screen := screen w;
     sleep_lag := sleep_lag w;
     locate_cost := locate_cost w;
     pointer_cost := pointer_cost w |}.

(** No external call takes a negative time. *)
Record causal (w : World) : Prop := mkCausal {
  lag_nonneg : forall t, 0 <= sleep_lag w t;
  locate_nonneg : forall t, 0 <= locate_cost w t;
  pointer_nonneg : forall t, 0 <= pointer_cost w t
}.

(** The world after a sleep of [secs] seconds, after a screen search for
    [path], after a pointer move to [p]. *)
Definition slept (secs : Q) (w : World) : World :=
  issue (Sleep secs) (secs + sleep_lag w (now w)) w.

Definition searched (path : string) (w : World) : World :=
  issue (LocateOnScreen path) (locate_cost w (now w)) w.

Definition moved (p : Point) (w : World) : World :=
  issue (MoveTo p) (pointer_cost w (now w)) w.

(** [time.time()] *)
Definition time_time : M World Q := fun w => (Done (now w), w).

(** [time.sleep(secs)]: refuses a negative length, otherwise suspends for
    at least [secs]. *)
Definition time_sleep (secs : Q) : M World unit :=
  fun w =>
    if Qle_bool 0 secs
    then (Done tt, slept secs w)
    else (Raise (ValueError "sleep length must be non-negative"), w).

(** [pg.locateOnScreen(path)]: the region found, or
    [ImageNotFoundException]. *)
Definition locateOnScreen (path : string) : M World Box :=
  fun w =>
    match screen w path (now w) with
    | Some box => (Done box, searched path w)
    | None => (Raise ImageNotFoundException, searched path w)
    end.

(** [pg.center(box)]: [Point(left + int(width / 2), top + int(height / 2))];
    [None] cannot be indexed. *)
Definition center_of (b : Box) : Point :=
  mkPoint (left b + Z.quot (width b) 2) (top b + Z.quot (height b) 2).

Definition center (box : option Box) : M World Point :=
  match box with
  | Some b => ret (center_of b)
  | None => raise (TypeError "'NoneType' object is not subscriptable")
  end.

(** [pg.moveTo(point)] *)
Definition moveTo (p : Point) : M World unit :=
  fun w => (Done tt, moved p w).

(** [pg.click(x=, y=, button=, clicks=)] *)
Definition click (x y : option Z) (button : string) (clicks : Z)
  : M World unit :=
  fun w => (Done tt, issue (Click x y button clicks) (pointer_cost w (now w)) w).

(** *** class IOClick (lines 39-104); [at_] is the method [at] *)
Module IOClick.

Record t : Type := mk {
  clicks : Z;
  x : option Z;
  y : option Z;
  button : string;
  interval_wait : Q
}.

Definition init : t :=
  {| clicks := 1; x := None; y := None; button := "primary";
     interval_wait := 0 |}.

Definition at_ (self : t) (x' y' : Z) : t :=
  {| clicks := clicks self; x := Some x'; y := Some y';
     button := button self; interval_wait := interval_wait self |}.

Definition with_button (self : t) (b : string) : t :=
  {| clicks := clicks self; x := x self; y := y self;
     button := b; interval_wait := interval_wait self |}.

Definition with_left_button (self : t) : t := with_button self "left".
Definition with_primary_button (self : t) : t := with_button self "primary".
Definition with_right_button (self : t) : t := with_button self "right".

Definition wait (self : t) (secs : Q) : t :=
  {| clicks := clicks self; x := x self; y := y self;
     button := button self; interval_wait := secs |}.

(** [repeat] mutates [self] unless its assertion fails; the state of
    the statement is the object. *)
Definition repeat (n : Z) : M t unit :=
  assert_ (negb (n =? 0)%Z) "Cannot click 0 times" ;;;
  fun self =>
    (Done tt, {| clicks := n; x := x self; y := y self;
                 button := button self;
                 interval_wait := interval_wait self |}).

(** [run], lines 89-104. *)
Definition run (self : t) : M World unit :=
  if Qeq_bool (interval_wait self) 0
  then click (x self) (y self) (button self) (clicks self)
  else for_each (range_len (clicks self))
         (time_sleep (interval_wait self) ;;;
          click (x self) (y self) (button self) 1).

End IOClick.

(** *** class IOPixel (lines 148-197) *)
Module IOPixel.

Record t : Type := mk {
  x : option Z;
  y : option Z;
  rgb : option (Z * Z * Z)
}.

Definition init (x' y' : option Z) : t :=
  {| x := x'; y := y'; rgb := None |}.

Definition at_ (self : t) (x' y' : Z) : t :=
  {| x := Some x'; y := Some y'; rgb := rgb self |}.

(** [0 <= c <= 255] *)
Definition channel_ok (c : Z) : bool := ((0 <=? c) && (c <=? 255))%Z.

(** [set_rgb] mutates [self]; the state of the statement is the object. *)
Definition set_rgb (r g b : Z) : M t unit :=
  assert_ (channel_ok r) "Invalid red value" ;;;
  assert_ (channel_ok g) "Invalid green value" ;;;
  assert_ (channel_ok b) "Invalid blue value" ;;;
  fun self => (Done tt, {| x := x self; y := y self; rgb := Some (r, g, b) |}).

End IOPixel.

(** *** class IOImage (lines 200-285) *)
Module IOImage.

Record t : Type := mk {
  path : string;
  wait_for : bool;
  timeout : Q;
  tolerance : Z;
  place_mouse : bool
}.

(** The constructor checks the path on the file system, given here by
    [os.path.exists] and [os.path.isfile]. *)
Definition init (path_exists path_isfile : string -> bool) (p : string)
  : Outcome t :=
  if path_exists p then
    if path_isfile p then
      Done {| path := p; wait_for := false; timeout := -1;
              tolerance := 0; place_mouse := false |}
    else Raise (AssertionError ("`" ++ p ++ "` is not a file"))
  else Raise (AssertionError ("`" ++ p ++ "` does not exist")).

Definition check_for (self : t) : t :=
  {| path := path self; wait_for := false; timeout := timeout self;
     tolerance := tolerance self; place_mouse := place_mouse self |}.

Definition set_timeout (self : t) (secs : Q) : t :=
  {| path := path self; wait_for := wait_for self; timeout := secs;
     tolerance := tolerance self; place_mouse := place_mouse self |}.

Definition place_mouse_over (self : t) : t :=
  {| path := path self; wait_for := wait_for self; timeout := timeout self;
     tolerance := tolerance self; place_mouse := true |}.

Definition set_tolerance (self : t) (tol : Z) : t :=
  {| path := path self; wait_for := wait_for self; timeout := timeout self;
     tolerance := tol; place_mouse := place_mouse self |}.

Definition wait_for_presence (self : t) : t :=
  {| path := path self; wait_for := true; timeout := timeout self;
     tolerance := tolerance self; place_mouse := place_mouse self |}.

Definition is_ImageNotFound (e : Exn) : bool :=
  match e with ImageNotFoundException => true | _ => false end.

(** [is_existing], lines 244-253. *)
Definition is_existing (self : t) : M World (bool * option Box) :=
  try_except
    (box <- locateOnScreen (path self) ;; ret (true, Some box))
    is_ImageNotFound
    (ret (false, None)).

(** The pause of both polling loops: [0.01] and [1 / 100]. *)
Definition poll_interval : Q := 1 # 100.

(** [center_point = pg.center(box); pg.moveTo(center_point)] *)
Definition move_to_center (box : option Box) : M World unit :=
  center_point <- center box ;; moveTo center_point.

(** The loop of the branch without a timeout, lines 259-266.  Its test
    reads the method [self.place_mouse_over], not the flag
    [self.place_mouse]. *)
Fixpoint poll_forever (fuel : nat) (self : t)
  : M World (bool * option Box) :=
  match fuel with
  | O => diverge
  | S fuel' =>
      r <- is_existing self ;;
      if fst r then
        (if bool_of_method place_mouse_over
         then move_to_center (snd r) else ret tt) ;;;
        ret (true, snd r)
      else
        time_sleep poll_interval ;;;
        poll_forever fuel' self
  end.

(** The loop of the branch with a timeout, lines 269-279, started at
    [start]; it has the same test. *)
Fixpoint poll_until (fuel : nat) (self : t) (start : Q)
  : M World (bool * option Box) :=
  match fuel with
  | O => diverge
  | S fuel' =>
      time_sleep poll_interval ;;;
      t1 <- time_time ;;
      if Qle_bool (timeout self) (t1 - start) then ret (false, None)
      else
        r <- is_existing self ;;
        if fst r then
          (if bool_of_method place_mouse_over
           then move_to_center (snd r) else ret tt) ;;;
          ret (true, snd r)
        else poll_until fuel' self start
  end.

(** [run], lines 255-285; [fuel] bounds the rounds of its loops. *)
Definition run (fuel : nat) (self : t) : M World (bool * option Box) :=
  if wait_for self then
    if Qeq_bool (timeout self) (-1)
    then poll_forever fuel self
    else start <- time_time ;; poll_until fuel self start
  else
    r <- is_existing self ;;
    (if fst r && place_mouse self
     then move_to_center (snd r) else ret tt) ;;;
    ret r.

End IOImage.

End IOCore.

(** ** [src/botzen/automation/web/core.py] *)

Module WebCore.
Import Py.
Local Open Scope py_scope.
Local Open Scope string_scope.

(** [By = Literal["xpath", "css", "id", "class", "text"]] *)
Definition By : list string := ["xpath"; "css"; "id"; "class"; "text"].

(** The objects playwright hands out are told apart by a number. *)
Definition Handle : Type := nat.

(** What [page.goto] returns, when it returns something. *)
Record Response : Type := mkResponse { headers_of : list (string * string) }.

(** [page.locator(selector)] *)
Record Locator : Type := mkLocator { loc_page : Handle; loc_selector : string }.

(** The calls into playwright that change the outside. *)
Inductive Call : Type :=
| SyncPlaywrightStart (engine : Handle)
| ChromiumLaunch (engine : Handle) (headless : bool) (browser : Handle)
| NewContext (browser context : Handle)
| NewPage (context page : Handle)
| Goto (page : Handle) (url : string)
| PageClose (page : Handle)
| ContextClose (context : Handle)
| BrowserClose (browser : Handle)
| PlaywrightStop (engine : Handle).

(** The outside: the next unused handle, the calls made so far (oldest
    first), and what a navigation to a URL ends in. *)
Record World : Type := mkWorld {
  next_handle : Handle;
  calls : list Call;
  navigate : string -> Exn + option Response
}.

(** The attributes of a [Web] object; those [start] binds are absent
    until then. *)
Record Web : Type := mkWeb {
  url : string;
  headless : bool;
  playwright : option Handle;
  browser : option Handle;
  context : option Handle;
  page : option Handle;
  response : option (option Response)
}.

(** A method runs on [self] and the outside. *)
Definition St : Type := (Web * World)%type.

Definition init (u : string) : Web :=
  {| url := u; headless := false; playwright := None; browser := None;
     context := None; page := None; response := None |}.

Definition enable_headless (self : Web) : Web :=
  {| url := url self; headless := true; playwright := playwright self;
     browser := browser self; context := context self; page := page self;
     response := response self |}.

(** [self.<name>], an [AttributeError] when the attribute is not bound. *)
Definition getattr {A} (name : string) (field : Web -> option A) : M St A :=
  fun s =>
    match field (fst s) with
    | Some v => (Done v, s)
    | None => (Raise (AttributeError name), s)
    end.

Definition get {A} (field : Web -> A) : M St A :=
  fun s => (Done (field (fst s)), s).

Definition setattr (f : Web -> Web) : M St unit :=
  fun s => (Done tt, (f (fst s), snd s)).

Definition emit (c : Call) : M St unit :=
  fun s =>
    (Done tt,
     (fst s, {| next_handle := next_handle (snd s);
                calls := calls (snd s) ++ [c];
                navigate := navigate (snd s) |})).

(** A call that hands out a new object. *)
Definition acquire (c : Handle -> Call) : M St Handle :=
  fun s =>
    let h := next_handle (snd s) in
    (Done h,
     (fst s, {| next_handle := S h;
                calls := calls (snd s) ++ [c h];
                navigate := navigate (snd s) |})).

(** [page.goto(url)] *)
Definition goto (pg : Handle) (u : string) : M St (option Response) :=
  emit (Goto pg u) ;;;
  fun s =>
    match navigate (snd s) u with
    | inr r => (Done r, s)
    | inl e => (Raise e, s)
    end.

Definition set_playwright (h : Handle) (self : Web) : Web :=
  {| url := url self; headless := headless self; playwright := Some h;
     browser := browser self; context := context self; page := page self;
     response := response self |}.

Definition set_browser (h : Handle) (self : Web) : Web :=
  {| url := url self; headless := headless self;
     playwright := playwright self; browser := Some h;
     context := context self; page := page self;
     response := response self |}.

Definition set_context (h : Handle) (self : Web) : Web :=
  {| url := url self; headless := headless self;
     playwright := playwright self; browser := browser self;
     context := Some h; page := page self; response := response self |}.

Definition set_page (h : Handle) (self : Web) : Web :=
  {| url := url self; headless := headless self;
     playwright := playwright self; browser := browser self;
     context := context self; page := Some h; response := response self |}.

Definition set_url (u : string) (self : Web) : Web :=
  {| url := u; headless := headless self;
     playwright := playwright self; browser := browser self;
     context := context self; page := page self;
     response := response self |}.

Definition set_response (r : option Response) (self : Web) : Web :=
  {| url := url self; headless := headless self;
     playwright := playwright self; browser := browser self;
     context := context self; page := page self; response := Some r |}.

(** [start], lines 37-46. *)
Definition start : M St unit :=
  pw <- acquire SyncPlaywrightStart ;;
  setattr (set_playwright pw) ;;;
  pw' <- getattr "playwright" playwright ;;
  hl <- get headless ;;
  br <- acquire (ChromiumLaunch pw' hl) ;;
  setattr (set_browser br) ;;;
  br' <- getattr "browser" browser ;;
  ctx <- acquire (NewContext br') ;;
  setattr (set_context ctx) ;;;
  ctx' <- getattr "context" context ;;
  pg <- acquire (NewPage ctx') ;;
  setattr (set_page pg) ;;;
  pg' <- getattr "page" page ;;
  u <- get url ;;
  r <- goto pg' u ;;
  setattr (set_response r).

(** [redirect], lines 48-53. *)
Definition redirect (u : string) : M St unit :=
  setattr (set_url u) ;;;
  pg <- getattr "page" page ;;
  u' <- get url ;;
  r <- goto pg u' ;;
  setattr (set_response r).

(** [find], lines 55-80: the [match] on the strategy string; only the
    supported cases touch [self.page]. *)
Definition find (selector by_ : string) : M St Locator :=
  if String.eqb by_ "css" then
    pg <- getattr "page" page ;; ret (mkLocator pg selector)
  else if String.eqb by_ "id" then
    pg <- getattr "page" page ;; ret (mkLocator pg ("#" ++ selector))
  else if String.eqb by_ "class" then
    pg <- getattr "page" page ;; ret (mkLocator pg ("." ++ selector))
  else if String.eqb by_ "xpath" then
    pg <- getattr "page" page ;; ret (mkLocator pg ("xpath=" ++ selector))
  else if String.eqb by_ "text" then
    pg <- getattr "page" page ;; ret (mkLocator pg ("text=" ++ selector))
  else raise (ValueError ("`" ++ by_ ++ "` is unsupported")).

(** [close], lines 215-222. *)
Definition close : M St unit :=
  pg <- getattr "page" page ;;
  emit (PageClose pg) ;;;
  ctx <- getattr "context" context ;;
  emit (ContextClose ctx) ;;;
  br <- getattr "browser" browser ;;
  emit (BrowserClose br) ;;;
  pw <- getattr "playwright" playwright ;;
  emit (PlaywrightStop pw).

(** [__enter__], lines 224-229; it returns [self], which the state already
    carries. *)
Definition enter_ : M St unit := start.

(** [__exit__], lines 231-237; it returns [None]: the exception, if any,
    is not swallowed. *)
Definition exit_ (exc : option Exn) : M St bool :=
  close ;;; ret false.

(** Python's [with mgr as v: body], for a manager whose [__enter__] and
    [__exit__] are [enter] and [exit]: [__exit__] runs when the body
    returns and when it raises, never when [__enter__] raised; an
    exception of the body is raised again unless [__exit__] returned a
    true value ([None] is the result then). *)
Definition with_ {S A} (enter : M S unit) (exit : option Exn -> M S bool)
    (body : M S A) : M S (option A) :=
  fun s =>
    match enter s with
    | (Done _, s1) =>
        match body s1 with
        | (Done a, s2) =>
            match exit None s2 with
            | (Done _, s3) => (Done (Some a), s3)
            | (Raise e, s3) => (Raise e, s3)
            | (OutOfFuel, s3) => (OutOfFuel, s3)
            end
        | (Raise e, s2) =>
            match exit (Some e) s2 with
            | (Done swallow, s3) =>
                if swallow then (Done None, s3) else (Raise e, s3)
            | (Raise e', s3) => (Raise e', s3)
            | (OutOfFuel, s3) => (OutOfFuel, s3)
            end
        | (OutOfFuel, s2) => (OutOfFuel, s2)
        end
    | (Raise e, s1) => (Raise e, s1)
    | (OutOfFuel, s1) => (OutOfFuel, s1)
    end.

(** [with <a Web object> as w: body]; [w] is the object itself, which
    the body reaches through the state. *)
Definition with_web {A} (body : M St A) : M St (option A) :=
  with_ enter_ exit_ body.

(** The calls of a full teardown, in the order [close] makes them. *)
Definition teardown (pw br ctx pg : Handle) : list Call :=
  [PageClose pg; ContextClose ctx; BrowserClose br; PlaywrightStop pw].

(** The kinds of session resource. *)
Inductive Resource : Type := Engine | Browser | Context | Page.

Definition acquired (c : Call) : option Resource :=
  match c with
  | SyncPlaywrightStart _ => Some Engine
  | ChromiumLaunch _ _ _ => Some Browser
  | NewContext _ _ => Some Context
  | NewPage _ _ => Some Page
  | _ => None
  end.

Definition released (c : Call) : option Resource :=
  match c with
  | PageClose _ => Some Page
  | ContextClose _ => Some Context
  | BrowserClose _ => Some Browser
  | PlaywrightStop _ => Some Engine
  | _ => None
  end.

Fixpoint pick {A B} (f : A -> option B) (l : list A) : list B :=
  match l with
  | [] => []
  | a :: l' =>
      match f a with
      | Some b => b :: pick f l'
      | None => pick f l'
      end
  end.

(** The calls [start] makes when the next unused handle is [h]. *)
Definition startup (h : Handle) (hl : bool) (u : string) : list Call :=
  [SyncPlaywrightStart h; ChromiumLaunch h hl (S h);
   NewContext (S h) (S (S h)); NewPage (S (S h)) (S (S (S h)));
   Goto (S (S (S h))) u].

(** A block body that leaves the four session attributes of the object
    as [start] bound them. *)
Definition keeps_session {A} (body : M St A) : Prop :=
  forall (s s' : St) (o : Outcome A),
    body s = (o, s') ->
    playwright (fst s') = playwright (fst s) /\
    browser (fst s') = browser (fst s) /\
    context (fst s') = context (fst s) /\
    page (fst s') = page (fst s).

(** How a [with] statement ends, given how its body ended and that
    [__exit__] swallows nothing. *)
Definition propagated {A} (o : Outcome A) : Outcome (option A) :=
  match o with
  | Done a => Done (Some a)
  | Raise e => Raise e
  | OutOfFuel => OutOfFuel
  end.

End WebCore.

(** ** The shape of a polling log *)

Module Traces.
Import IOCore.
Local Open Scope Q_scope.

(** Every screen search among the calls [evs] comes right after a sleep
    of one poll interval and was issued when less than [limit] had
    elapsed since [start]; [prev] is the call made before [evs]. *)
Fixpoint searches_guarded (start limit : Q) (prev : option Call)
    (evs : list (Q * Call)) : Prop :=
  match evs with
  | [] => True
  | (issued, c) :: rest =>
      match c with
      | LocateOnScreen _ =>
          prev = Some (Sleep IOImage.poll_interval) /\
          issued - start < limit
      | _ => True
      end /\
      searches_guarded start limit (Some c) rest
  end.

(** The outside as far as the timed loop on image [self] depends on it:
    no call takes a negative time, a sleep overruns by at most [L], a
    screen search takes at most [C], and the image never shows. *)
Definition steady (self : IOImage.t) (L C : Q) (w : World) : Prop :=
  causal w /\
  (forall t, sleep_lag w t <= L) /\
  (forall t, locate_cost w t <= C) /\
  (forall t, screen w (IOImage.path self) t = None).

End Traces.

(** ** Concrete objects and worlds *)

Module Samples.
Import IOCore.
Local Open Scope Q_scope.

(** [time.sleep] exact, every other call instantaneous; [shown] says what
    the screen holds. *)
Definition ideal_world (shown : string -> Q -> option Box) : World :=
  mkWorld 0 [] shown (fun _ => 0) (fun _ => 0) (fun _ => 0).

(** Nothing is ever on the screen. *)
Definition blank_world : World := ideal_world (fun _ _ => None).

(** As [blank_world], but every screen search takes half a second. *)
Definition slow_search_world : World :=
  mkWorld 0 [] (fun _ _ => None) (fun _ => 0) (fun _ => 1 # 2) (fun _ => 0).

Definition button_box : Box := mkBox 100 200 40 20.

(** The image is on the screen all the time. *)
Definition showing_world : World := ideal_world (fun _ _ => Some button_box).

(** [IOClick()] after [repeat(3)] and [wait(0.5)]. *)
Definition triple_click : IOClick.t :=
  IOClick.mk 3 None None "primary" (1 # 2).

(** [IOImage("button.png")] after [wait_for_presence()]; the flag
    [place_mouse] is unset. *)
Definition waiting_image : IOImage.t :=
  IOImage.mk "button.png" true (-1) 0 false.

(** The same after [set_timeout(secs)]. *)
Definition timed_image (secs : Q) : IOImage.t :=
  IOImage.set_timeout waiting_image secs.

(** Every navigation succeeds, without a response object. *)
Definition open_web : WebCore.World :=
  WebCore.mkWorld 0%nat [] (fun _ => inr None).

(** No navigation succeeds. *)
Definition closed_web : WebCore.World :=
  WebCore.mkWorld 0%nat []
    (fun _ => inl (Py.PlaywrightError "net::ERR_NAME_NOT_RESOLVED")).

(** A block body: a redirect, then an exception. *)
Definition failing_body : Py.M WebCore.St unit :=
  Py.bind (WebCore.redirect "https://example.org/next")
    (fun _ => Py.raise (Py.UserError "boom")).

(** A [Web] object whose session is running on page [pg]. *)
Definition live_web (pg : WebCore.Handle) : WebCore.Web :=
  WebCore.mkWeb "https://example.org" false (Some 0%nat) (Some 1%nat)
    (Some 2%nat) (Some pg) (Some None).

End Samples.

(** ** Shapes of logs and screens used by further properties *)

Module Patterns.
Import IOCore.
Local Open Scope Q_scope.

(** The calls of [n] rounds of the loop of [IOClick.run]. *)
Fixpoint click_rounds (n : nat) (self : IOClick.t) : list Call :=
  match n with
  | O => []
  | S k =>
      Sleep (IOClick.interval_wait self)
      :: Click (IOClick.x self) (IOClick.y self) (IOClick.button self) 1
      :: click_rounds k self
  end.

(** From time [T] on, the image of [self] is on the screen. *)
Definition shows_from (self : IOImage.t) (T : Q) (w : World) : Prop :=
  forall t, T <= t -> exists region, screen w (IOImage.path self) t = Some region.

(** The world after [k] rounds of the timed loop in none of which the
    loop returned: a sleep and a search each. *)
Fixpoint after_rounds (k : nat) (self : IOImage.t) (w : World) : World :=
  match k with
  | O => w
  | S k' =>
      after_rounds k' self
        (searched (IOImage.path self) (slept IOImage.poll_interval w))
  end.

(** The first [k] rounds of the timed loop started at [start] decide
    nothing: at each expiry test less than the timeout has elapsed, and
    each search misses. *)
Fixpoint undecided (k : nat) (self : IOImage.t) (start : Q) (w : World)
  : Prop :=
  match k with
  | O => True
  | S k' =>
      let w1 := slept IOImage.poll_interval w in
      now w1 - start < IOImage.timeout self /\
      screen w1 (IOImage.path self) (now w1) = None /\
      undecided k' self start (searched (IOImage.path self) w1)
  end.

(** The screen searches of a log. *)
Definition is_search (e : Q * Call) : bool :=
  match snd e with LocateOnScreen _ => true | _ => false end.

(** The pointer moves of a log. *)
Definition is_move (e : Q * Call) : bool :=
  match snd e with MoveTo _ => true | _ => false end.

End Patterns.

(** ** [src/botzen/automation/web/core.py]: the methods that act on
    elements *)

Module WebActions.
Import Py.
Import WebCore.
Local Open Scope py_scope.
Local Open Scope string_scope.

(** The calls on a locator. *)
Inductive Action : Type :=
| Count (loc : Locator)
| FirstIsVisible (loc : Locator)
| WaitFor (loc : Locator) (state : string) (timeout_ms : Z)
| ClickOn (loc : Locator)
| Fill (loc : Locator) (text : string).

(** How [locator.wait_for] ends: the state was reached, or it raised
    [PlaywrightTimeoutError], or it raised something else. *)
Inductive Waited : Type :=
| Reached
| TimedOut
| Failed (e : Exn).

(** The page as the locator calls see it: the calls made so far (oldest
    first) and what each call answers, which may depend on how many calls
    came before it. *)
Record Dom : Type := mkDom {
  actions : list Action;
  counted : nat -> Locator -> Exn + Z;
  first_visible : nat -> Locator -> Exn + bool;
  waited : nat -> Locator -> string -> Z -> Waited;
  clicked : nat -> Locator -> Exn + unit;
  filled : nat -> Locator -> string -> Exn + unit
}.

(** The object, the session and the page. *)
Definition St : Type := (WebCore.St * Dom)%type.

(** A method of [WebCore] run in the larger state. *)
Definition lift {A} (m : M WebCore.St A) : M St A :=
  fun s =>
    match m (fst s) with
    | (o, s1) => (o, (s1, snd s))
    end.

Definition record (a : Action) (d : Dom) : Dom :=
  {| actions := actions d ++ [a];
     counted := counted d;
     first_visible := first_visible d;
     waited := waited d;
     clicked := clicked d;
     filled := filled d |}.

(** Make call [a], whose answer is [r]. *)
Definition call {A} (a : Action) (r : Dom -> Exn + A) : M St A :=
  fun s =>
    match r (snd s) with
    | inr v => (Done v, (fst s, record a (snd s)))
    | inl e => (Raise e, (fst s, record a (snd s)))
    end.

(** [loc.count()] *)
Definition count (loc : Locator) : M St Z :=
  call (Count loc) (fun d => counted d (List.length (actions d)) loc).

(** [loc.first.is_visible()] *)
Definition first_is_visible (loc : Locator) : M St bool :=
  call (FirstIsVisible loc) (fun d => first_visible d (List.length (actions d)) loc).

(** [loc.click()] *)
Definition click_on (loc : Locator) : M St unit :=
  call (ClickOn loc) (fun d => clicked d (List.length (actions d)) loc).

(** [loc.fill(text)] *)
Definition fill_on (loc : Locator) (text : string) : M St unit :=
  call (Fill loc text) (fun d => filled d (List.length (actions d)) loc text).

(** [loc.wait_for(state=, timeout=)], its three ways to end told apart. *)
Definition wait_on (loc : Locator) (state : string) (timeout_ms : Z)
  : M St Waited :=
  fun s =>
    (Done (waited (snd s) (List.length (actions (snd s))) loc state timeout_ms),
     (fst s, record (WaitFor loc state timeout_ms) (snd s))).

(** [exists], lines 82-96: [loc.count() > 0 and loc.first.is_visible()]. *)
Definition exists_ (selector by_ : string) : M St bool :=
  loc <- lift (find selector by_) ;;
  n <- count loc ;;
  if (0 <? n)%Z then first_is_visible loc else ret false.

(** [wait_for], lines 98-133: the lookup and the wait are inside the
    [try]; the handler catches [PlaywrightTimeoutError] only. *)
Definition wait_for (selector by_ : string) (timeout_ms : Z) (state : string)
  : M St bool :=
  loc <- lift (find selector by_) ;;
  r <- wait_on loc state timeout_ms ;;
  match r with
  | Reached => ret true
  | TimedOut => ret false
  | Failed e => raise e
  end.

(** [fill], lines 154-168. *)
Definition fill (selector by_ text : string) : M St unit :=
  loc <- lift (find selector by_) ;; fill_on loc text.

(** [click], lines 170-185: the lookup is inside the loop. *)
Definition click (selector by_ : string) (amount : Z) : M St unit :=
  for_each (range_len amount)
    (loc <- lift (find selector by_) ;; click_on loc).

(** [headers], lines 209-213: [self.response.headers if self.response
    else {}]; a response object is true, [None] is not. *)
Definition headers : M WebCore.St (list (string * string)) :=
  r <- getattr "response" response ;;
  match r with
  | Some resp => ret (headers_of resp)
  | None => ret []
  end.

(** The clicks of a list of calls. *)
Definition is_click (a : Action) : bool :=
  match a with ClickOn _ => true | _ => false end.

End WebActions.

(** ** [IOPixel.manually_pick], lines 168-186 of [io/core.py] *)

Module Picker.
Import Py.
Local Open Scope py_scope.
Local Open Scope string_scope.

(** The calls of [manually_pick]: into [print], [keyboard] and
    pyautogui. *)
Inductive Call : Type :=
| Print (written : string)
| BlockKey (key : string)
| UnblockKey (key : string)
| Position
| Pixel (x y : Z)
| IsPressed (key : string).

(** The desk: the calls made so far (oldest first), and where the pointer
    is, what colour a pixel has and whether a key is down, each of which
    may depend on how many calls came before. *)
Record Desk : Type := mkDesk {
  made : list Call;
  pointer_at : nat -> Z * Z;
  pixel_at : nat -> Z -> Z -> Z * Z * Z;
  pressed_at : nat -> string -> bool
}.

(** The pixel object and the desk. *)
Definition St : Type := (IOCore.IOPixel.t * Desk)%type.

Definition note (c : Call) (d : Desk) : Desk :=
  {| made := made d ++ [c];
     pointer_at := pointer_at d;
     pixel_at := pixel_at d;
     pressed_at := pressed_at d |}.

(** [print(text, end=end_)] *)
Definition print (text end_ : string) : M St unit :=
  fun s => (Done tt, (fst s, note (Print (text ++ end_)) (snd s))).

(** [keyboard.block_key(key)] and [keyboard.unblock_key(key)] *)
Definition block_key (key : string) : M St unit :=
  fun s => (Done tt, (fst s, note (BlockKey key) (snd s))).

Definition unblock_key (key : string) : M St unit :=
  fun s => (Done tt, (fst s, note (UnblockKey key) (snd s))).

(** [pg.position()] *)
Definition position : M St (Z * Z) :=
  fun s =>
    (Done (pointer_at (snd s) (List.length (made (snd s)))),
     (fst s, note Position (snd s))).

(** [pg.pixel(x, y)] *)
Definition pixel (x y : Z) : M St (Z * Z * Z) :=
  fun s =>
    (Done (pixel_at (snd s) (List.length (made (snd s))) x y),
     (fst s, note (Pixel x y) (snd s))).

(** [keyboard.is_pressed(key)] *)
Definition is_pressed (key : string) : M St bool :=
  fun s =>
    (Done (pressed_at (snd s) (List.length (made (snd s))) key),
     (fst s, note (IsPressed key) (snd s))).

(** [str(n)] of an integer and of a triple of integers. *)
Definition str_int (n : Z) : string := NilZero.string_of_int (Z.to_int n).

Definition str_triple (c : Z * Z * Z) : string :=
  "(" ++ str_int (fst (fst c)) ++ ", " ++ str_int (snd (fst c)) ++ ", "
  ++ str_int (snd c) ++ ")".

(** The format [:>width]: blanks on the left up to [width] characters. *)
Fixpoint blanks (n : nat) : string :=
  match n with
  | O => ""
  | S k => " " ++ blanks k
  end.

Definition rjust (width : nat) (s : string) : string :=
  blanks (width - String.length s) ++ s.

Definition CR : string := String (ascii_of_nat 13) "".
Definition LF : string := String (ascii_of_nat 10) "".

(** The line the loop writes in each round. *)
Definition status_line (x y : Z) (rgb : Z * Z * Z) : string :=
  CR ++ "X: " ++ str_int x ++ "  Y: " ++ str_int y ++ "  RBG: "
  ++ rjust 15 (str_triple rgb).

(** [self.x = x; self.y = y; self.rgb = rgb] *)
Definition store (x y : Z) (rgb : Z * Z * Z) : M St unit :=
  fun s => (Done tt, (IOCore.IOPixel.mk (Some x) (Some y) (Some rgb), snd s)).

(** The [while True] loop, lines 176-186. *)
Fixpoint pick_loop (fuel : nat) : M St unit :=
  match fuel with
  | O => diverge
  | S fuel' =>
      p <- position ;;
      rgb <- pixel (fst p) (snd p) ;;
      print (status_line (fst p) (snd p) rgb) "" ;;;
      hit <- is_pressed "." ;;
      if hit then
        print LF LF ;;;
        store (fst p) (snd p) rgb ;;;
        unblock_key "."
      else pick_loop fuel'
  end.

Definition manually_pick (fuel : nat) : M St unit :=
  print "Press `.` to select the pixel" LF ;;;
  block_key "." ;;;
  pick_loop fuel.

(** The calls of one round that samples [(x, y)] and [rgb]. *)
Definition round_calls (x y : Z) (rgb : Z * Z * Z) : list Call :=
  [Position; Pixel x y; Print (status_line x y rgb); IsPressed "."].

Definition is_unblock (c : Call) : bool :=
  match c with UnblockKey _ => true | _ => false end.

End Picker.

(** ** More concrete objects and worlds *)

Module MoreSamples.
Import IOCore.
Local Open Scope Q_scope.

(** The image comes on the screen after a twentieth of a second and
    stays. *)
Definition late_world : World :=
  Samples.ideal_world
    (fun _ t => if Qle_bool (1 # 20) t then Some Samples.button_box else None).

(** The image is on the screen all the time, and every screen search takes
    half a second. *)
Definition slow_showing_world : World :=
  mkWorld 0 [] (fun _ _ => Some Samples.button_box) (fun _ => 0)
    (fun _ => 1 # 2) (fun _ => 0).

(** [IOClick()] after [wait(-1)]. *)
Definition hasty_click : IOClick.t :=
  IOClick.wait IOClick.init (-1).

(** A page on which every locator matches one visible element and every
    call succeeds. *)
Definition still_dom : WebActions.Dom :=
  WebActions.mkDom [] (fun _ _ => inr 1%Z) (fun _ _ => inr true)
    (fun _ _ _ _ => WebActions.Reached) (fun _ _ => inr tt)
    (fun _ _ _ => inr tt).

(** A page on which no locator matches anything and every wait times
    out. *)
Definition bare_dom : WebActions.Dom :=
  WebActions.mkDom [] (fun _ _ => inr 0%Z) (fun _ _ => inr false)
    (fun _ _ _ _ => WebActions.TimedOut)
    (fun _ _ => inl (Py.PlaywrightError "Timeout 30000ms exceeded."))
    (fun _ _ _ => inl (Py.PlaywrightError "Timeout 30000ms exceeded.")).

(** A running session on page 3, with one of the pages above. *)
Definition live (d : WebActions.Dom) : WebActions.St :=
  ((Samples.live_web 3%nat, Samples.open_web), d).

(** A desk on which the pointer rests at (640, 360) over an orange pixel
    and the key [.] goes down once ten calls were made. *)
Definition patient_desk : Picker.Desk :=
  Picker.mkDesk []
    (fun _ => (640, 360)%Z)
    (fun _ _ _ => (255, 128, 0)%Z)
    (fun n _ => Nat.leb 10 n).

(** The same desk with the key [.] never down. *)
Definition idle_desk : Picker.Desk :=
  Picker.mkDesk []
    (fun _ => (640, 360)%Z)
    (fun _ _ _ => (255, 128, 0)%Z)
    (fun _ _ => false).

End MoreSamples.

(** * Properties *)

Import Py.
Local Open Scope Q_scope.

(** ** The sample objects are what the setters build *)

Example triple_click_built :
  IOCore.IOClick.repeat 3 (IOCore.IOClick.wait IOCore.IOClick.init (1 # 2)) =
    (Done tt, Samples.triple_click).
Proof. reflexivity. Qed.

Example waiting_image_built :
  IOCore.IOImage.init (fun _ => true) (fun _ => true) "button.png" =
    Done (IOCore.IOImage.check_for Samples.waiting_image) /\
  IOCore.IOImage.wait_for_presence
    (IOCore.IOImage.check_for Samples.waiting_image) = Samples.waiting_image.
Proof. split; reflexivity. Qed.

Example live_web_built :
  fst (snd (WebCore.start
              (WebCore.init "https://example.org", Samples.open_web))) =
    Samples.live_web 3%nat.
Proof. reflexivity. Qed.

(** ** Pixel colour configuration *)

(** C7: [IOPixel.set_rgb] stores the triple when all three channels are
    in 0..255, and fails an assertion, leaving the object as it was, when
    some channel is outside. *)
Theorem set_rgb_checks_channels :
  forall (self : IOCore.IOPixel.t) (r g b : Z),
    ((0 <= r <= 255 /\ 0 <= g <= 255 /\ 0 <= b <= 255)%Z ->
     IOCore.IOPixel.set_rgb r g b self =
       (Done tt,
        IOCore.IOPixel.mk (IOCore.IOPixel.x self) (IOCore.IOPixel.y self)
          (Some (r, g, b)))) /\
    (~ (0 <= r <= 255 /\ 0 <= g <= 255 /\ 0 <= b <= 255)%Z ->
     exists msg,
       IOCore.IOPixel.set_rgb r g b self = (Raise (AssertionError msg), self)).
Proof.
  intros self r g b. unfold IOCore.IOPixel.set_rgb, bind, assert_, ret, raise.
  unfold IOCore.IOPixel.channel_ok. split.
  - intros (Hr & Hg & Hb).
    replace ((0 <=? r) && (r <=? 255))%Z with true by lia.
    replace ((0 <=? g) && (g <=? 255))%Z with true by lia.
    replace ((0 <=? b) && (b <=? 255))%Z with true by lia.
    reflexivity.
  - intros Hbad.
    destruct ((0 <=? r) && (r <=? 255))%Z eqn:Er; [|eauto].
    destruct ((0 <=? g) && (g <=? 255))%Z eqn:Eg; [|eauto].
    destruct ((0 <=? b) && (b <=? 255))%Z eqn:Eb; [|eauto].
    exfalso. apply Hbad. lia.
Qed.

Lemma set_rgb_checks_channels_witness :
  IOCore.IOPixel.set_rgb 12 200 255 (IOCore.IOPixel.init None None) =
    (Done tt, IOCore.IOPixel.mk None None (Some (12, 200, 255)%Z)) /\
  exists msg,
    IOCore.IOPixel.set_rgb 12 256 0 (IOCore.IOPixel.init None None) =
      (Raise (AssertionError msg), IOCore.IOPixel.init None None).
Proof.
  split.
  - apply (proj1 (set_rgb_checks_channels (IOCore.IOPixel.init None None)
                    12 200 255)). lia.
  - apply (proj2 (set_rgb_checks_channels (IOCore.IOPixel.init None None)
                    12 256 0)). lia.
Defined.

(** ** Clicks *)

Lemma Qeq_bool_false : forall a b : Q, ~ a == b -> Qeq_bool a b = false.
Proof.
  intros a b H. destruct (Qeq_bool a b) eqn:E; [|reflexivity].
  apply Qeq_bool_iff in E. contradiction.
Qed.

Lemma Qle_bool_true : forall a b : Q, a <= b -> Qle_bool a b = true.
Proof. intros a b H. apply Qle_bool_iff. exact H. Qed.

(** C10: [IOClick.repeat] fails exactly on a count of zero; a negative
    count is stored, and a later [run] with a non-zero [interval_wait]
    makes no call at all, so no click. *)
Theorem repeat_rejects_only_zero :
  forall (self : IOCore.IOClick.t) (n : Z),
    ((exists e, fst (IOCore.IOClick.repeat n self) = Raise e) <-> n = 0%Z) /\
    ((n < 0)%Z ->
     exists self',
       IOCore.IOClick.repeat n self = (Done tt, self') /\
       IOCore.IOClick.clicks self' = n /\
       IOCore.IOClick.interval_wait self' = IOCore.IOClick.interval_wait self /\
       forall w : IOCore.World,
         ~ IOCore.IOClick.interval_wait self' == 0 ->
         IOCore.IOClick.run self' w = (Done tt, w)).
Proof.
  intros self n. unfold IOCore.IOClick.repeat, bind, assert_, ret, raise.
  split.
  - destruct (Z.eqb_spec n 0) as [E|E]; simpl.
    + split; [intros _; exact E | intros _; eauto].
    + split; [intros [e He]; discriminate | intros E'; contradiction].
  - intros Hn. destruct (Z.eqb_spec n 0) as [E|E]; [lia|]. simpl.
    eexists. split; [reflexivity|]. simpl. repeat split.
    intros w Hw. unfold IOCore.IOClick.run. simpl.
    rewrite (Qeq_bool_false Hw). unfold range_len.
    destruct n; try lia. reflexivity.
Qed.

Lemma repeat_rejects_only_zero_witness :
  exists self',
    IOCore.IOClick.repeat (-2) (IOCore.IOClick.wait IOCore.IOClick.init (1 # 2))
      = (Done tt, self') /\
    IOCore.IOClick.clicks self' = (-2)%Z /\
    IOCore.IOClick.interval_wait self' = 1 # 2 /\
    forall w : IOCore.World,
      ~ IOCore.IOClick.interval_wait self' == 0 ->
      IOCore.IOClick.run self' w = (Done tt, w).
Proof.
  apply (proj2 (repeat_rejects_only_zero
                  (IOCore.IOClick.wait IOCore.IOClick.init (1 # 2)) (-2))).
  reflexivity.
Defined.

Lemma causal_issue :
  forall c d w, IOCore.causal w -> IOCore.causal (IOCore.issue c d w).
Proof. intros c d w [H1 H2 H3]. split; assumption. Qed.

(** One round of the loop of [IOClick.run]: a sleep, then a single click
    that fires no sooner than the sleep's length after the round began. *)
Lemma click_round :
  forall (self : IOCore.IOClick.t) (w : IOCore.World),
    0 <= IOCore.IOClick.interval_wait self ->
    IOCore.causal w ->
    exists (w' : IOCore.World) (t : Q),
      bind (IOCore.time_sleep (IOCore.IOClick.interval_wait self))
        (fun _ =>
           IOCore.click (IOCore.IOClick.x self) (IOCore.IOClick.y self)
             (IOCore.IOClick.button self) 1) w = (Done tt, w') /\
      IOCore.log w' =
        IOCore.log w ++
        [(IOCore.now w, IOCore.Sleep (IOCore.IOClick.interval_wait self));
         (t, IOCore.Click (IOCore.IOClick.x self) (IOCore.IOClick.y self)
               (IOCore.IOClick.button self) 1)] /\
      IOCore.now w + IOCore.IOClick.interval_wait self <= t /\
      t <= IOCore.now w' /\
      IOCore.causal w'.
Proof.
  intros self w Hpos Hw.
  unfold bind, IOCore.time_sleep, IOCore.click.
  rewrite (Qle_bool_true Hpos).
  eexists. eexists. split; [reflexivity|].
  split; [simpl; rewrite <- app_assoc; reflexivity|].
  pose proof (IOCore.lag_nonneg Hw (IOCore.now w)) as Hl.
  pose proof (IOCore.pointer_nonneg Hw
    (IOCore.now w +
     (IOCore.IOClick.interval_wait self + IOCore.sleep_lag w (IOCore.now w))))
    as Hp.
  simpl. repeat split; try lra.
  - apply Hw.
  - apply Hw.
  - apply Hw.
Qed.

(** C5: with [clicks = 3] and [interval_wait = 0.5], [IOClick.run] makes
    exactly six calls: three times a sleep of the configured interval
    followed by one single click.  Each click fires at least half a second
    after its sleep began and no sleep begins before the click ahead of it,
    so successive clicks are at least half a second apart. *)
Theorem click_three_times_spaced :
  forall (self : IOCore.IOClick.t) (w : IOCore.World),
    IOCore.IOClick.clicks self = 3%Z ->
    IOCore.IOClick.interval_wait self == 1 # 2 ->
    IOCore.causal w ->
    exists (w' : IOCore.World) (s1 t1 s2 t2 s3 t3 : Q),
      IOCore.IOClick.run self w = (Done tt, w') /\
      (let pause := IOCore.Sleep (IOCore.IOClick.interval_wait self) in
       let one_click :=
         IOCore.Click (IOCore.IOClick.x self) (IOCore.IOClick.y self)
           (IOCore.IOClick.button self) 1 in
       IOCore.log w' =
         IOCore.log w ++
         [(s1, pause); (t1, one_click); (s2, pause); (t2, one_click);
          (s3, pause); (t3, one_click)]) /\
      s1 = IOCore.now w /\
      s1 + (1 # 2) <= t1 /\ t1 <= s2 /\
      s2 + (1 # 2) <= t2 /\ t2 <= s3 /\
      s3 + (1 # 2) <= t3 /\
      t1 + (1 # 2) <= t2 /\ t2 + (1 # 2) <= t3.
Proof.
  intros self w Hc Hi Hw.
  assert (Hpos : 0 <= IOCore.IOClick.interval_wait self)
    by (rewrite Hi; discriminate).
  unfold IOCore.IOClick.run.
  rewrite Qeq_bool_false by (rewrite Hi; discriminate).
  rewrite Hc. unfold range_len. simpl for_each.
  destruct (click_round self Hpos Hw) as (w1 & t1 & E1 & L1 & A1 & B1 & C1).
  destruct (click_round self Hpos C1) as (w2 & t2 & E2 & L2 & A2 & B2 & C2).
  destruct (click_round self Hpos C2) as (w3 & t3 & E3 & L3 & A3 & B3 & C3).
  exists w3, (IOCore.now w), t1, (IOCore.now w1), t2, (IOCore.now w2), t3.
  split.
  { unfold bind at 1. rewrite E1. unfold bind at 1. rewrite E2.
    unfold bind at 1. rewrite E3. reflexivity. }
  split.
  { cbv zeta. rewrite L3, L2, L1, <- !app_assoc. reflexivity. }
  rewrite Hi in A1, A2, A3.
  repeat split; try reflexivity; lra.
Qed.

Lemma ideal_world_causal :
  forall shown, IOCore.causal (Samples.ideal_world shown).
Proof. intros shown. split; intros t; simpl; lra. Qed.

Lemma click_three_times_spaced_witness :
  exists (w' : IOCore.World) (s1 t1 s2 t2 s3 t3 : Q),
    IOCore.IOClick.run Samples.triple_click Samples.blank_world = (Done tt, w') /\
    IOCore.log w' =
      IOCore.log Samples.blank_world ++
      [(s1, IOCore.Sleep (1 # 2)); (t1, IOCore.Click None None "primary" 1);
       (s2, IOCore.Sleep (1 # 2)); (t2, IOCore.Click None None "primary" 1);
       (s3, IOCore.Sleep (1 # 2)); (t3, IOCore.Click None None "primary" 1)] /\
    s1 = IOCore.now Samples.blank_world /\
    s1 + (1 # 2) <= t1 /\ t1 <= s2 /\
    s2 + (1 # 2) <= t2 /\ t2 <= s3 /\
    s3 + (1 # 2) <= t3 /\
    t1 + (1 # 2) <= t2 /\ t2 + (1 # 2) <= t3.
Proof.
  apply (click_three_times_spaced Samples.triple_click
           (w := Samples.blank_world)).
  - reflexivity.
  - reflexivity.
  - apply ideal_world_causal.
Defined.

(** ** The image probe *)

(** C8: [IOImage.is_existing] issues exactly one screen search and always
    returns normally: [(True, region)] when the search finds the image,
    [(False, None)] when it raises [ImageNotFoundException]. *)
Theorem is_existing_reports_normally :
  forall (self : IOCore.IOImage.t) (w : IOCore.World),
    exists w' : IOCore.World,
      IOCore.log w' =
        IOCore.log w ++
        [(IOCore.now w, IOCore.LocateOnScreen (IOCore.IOImage.path self))] /\
      IOCore.IOImage.is_existing self w =
        match IOCore.screen w (IOCore.IOImage.path self) (IOCore.now w) with
        | Some region => (Done (true, Some region), w')
        | None => (Done (false, None), w')
        end.
Proof.
  intros self w.
  exists (IOCore.searched (IOCore.IOImage.path self) w).
  split; [reflexivity|].
  unfold IOCore.IOImage.is_existing, try_except, bind, IOCore.locateOnScreen.
  destruct (IOCore.screen w (IOCore.IOImage.path self) (IOCore.now w));
    reflexivity.
Qed.

(** [is_existing] and the two loops, one step at a time. *)
Lemma is_existing_eq :
  forall (self : IOCore.IOImage.t) (w : IOCore.World),
    IOCore.IOImage.is_existing self w =
      (Done
         match IOCore.screen w (IOCore.IOImage.path self) (IOCore.now w) with
         | Some region => (true, Some region)
         | None => (false, None)
         end,
       IOCore.searched (IOCore.IOImage.path self) w).
Proof.
  intros self w.
  unfold IOCore.IOImage.is_existing, try_except, bind, IOCore.locateOnScreen.
  destruct (IOCore.screen w (IOCore.IOImage.path self) (IOCore.now w));
    reflexivity.
Qed.

Lemma poll_forever_step :
  forall (fuel : nat) (self : IOCore.IOImage.t) (w : IOCore.World),
    IOCore.IOImage.poll_forever (S fuel) self w =
      let w1 := IOCore.searched (IOCore.IOImage.path self) w in
      match IOCore.screen w (IOCore.IOImage.path self) (IOCore.now w) with
      | Some region =>
          (Done (true, Some region), IOCore.moved (IOCore.center_of region) w1)
      | None =>
          IOCore.IOImage.poll_forever fuel self
            (IOCore.slept IOCore.IOImage.poll_interval w1)
      end.
Proof.
  intros fuel self w. cbn [IOCore.IOImage.poll_forever]. unfold bind at 1.
  rewrite is_existing_eq.
  destruct (IOCore.screen w (IOCore.IOImage.path self) (IOCore.now w));
    reflexivity.
Qed.

Lemma poll_until_step :
  forall (fuel : nat) (self : IOCore.IOImage.t) (start : Q) (w : IOCore.World),
    IOCore.IOImage.poll_until (S fuel) self start w =
      let w1 := IOCore.slept IOCore.IOImage.poll_interval w in
      if Qle_bool (IOCore.IOImage.timeout self) (IOCore.now w1 - start)
      then (Done (false, None), w1)
      else
        let w2 := IOCore.searched (IOCore.IOImage.path self) w1 in
        match IOCore.screen w1 (IOCore.IOImage.path self) (IOCore.now w1) with
        | Some region =>
            (Done (true, Some region),
             IOCore.moved (IOCore.center_of region) w2)
        | None => IOCore.IOImage.poll_until fuel self start w2
        end.
Proof.
  intros fuel self start w. cbn [IOCore.IOImage.poll_until].
  unfold bind at 1. cbn [IOCore.time_sleep].
  change (IOCore.time_sleep IOCore.IOImage.poll_interval w)
    with (Done tt, IOCore.slept IOCore.IOImage.poll_interval w).
  cbv iota. unfold bind at 1, IOCore.time_time.
  destruct (Qle_bool _ _); [reflexivity|].
  unfold bind at 1. rewrite is_existing_eq.
  destruct (IOCore.screen _ _ _); reflexivity.
Qed.

(** Neither polling loop reads the flag [place_mouse]. *)
Lemma poll_forever_ignores_flag :
  forall (fuel : nat) (self : IOCore.IOImage.t) (w : IOCore.World),
    IOCore.IOImage.poll_forever fuel (IOCore.IOImage.place_mouse_over self) w =
    IOCore.IOImage.poll_forever fuel self w.
Proof.
  induction fuel as [|fuel IH]; intros self w; [reflexivity|].
  rewrite !poll_forever_step.
  change (IOCore.IOImage.path (IOCore.IOImage.place_mouse_over self))
    with (IOCore.IOImage.path self).
  cbv zeta. destruct (IOCore.screen _ _ _); [reflexivity|]. apply IH.
Qed.

Lemma poll_until_ignores_flag :
  forall (fuel : nat) (self : IOCore.IOImage.t) (start : Q) (w : IOCore.World),
    IOCore.IOImage.poll_until fuel (IOCore.IOImage.place_mouse_over self)
      start w =
    IOCore.IOImage.poll_until fuel self start w.
Proof.
  induction fuel as [|fuel IH]; intros self start w; [reflexivity|].
  rewrite !poll_until_step.
  change (IOCore.IOImage.path (IOCore.IOImage.place_mouse_over self))
    with (IOCore.IOImage.path self).
  change (IOCore.IOImage.timeout (IOCore.IOImage.place_mouse_over self))
    with (IOCore.IOImage.timeout self).
  cbv zeta. destruct (Qle_bool _ _); [reflexivity|].
  destruct (IOCore.screen _ _ _); [reflexivity|]. apply IH.
Qed.

(** In polling mode [run] does the same whether or not [place_mouse_over]
    was called. *)
Lemma polling_run_ignores_flag :
  forall (fuel : nat) (self : IOCore.IOImage.t) (w : IOCore.World),
    IOCore.IOImage.wait_for self = true ->
    IOCore.IOImage.run fuel (IOCore.IOImage.place_mouse_over self) w =
    IOCore.IOImage.run fuel self w.
Proof.
  intros fuel self w Hwait. unfold IOCore.IOImage.run.
  change (IOCore.IOImage.wait_for (IOCore.IOImage.place_mouse_over self))
    with (IOCore.IOImage.wait_for self).
  change (IOCore.IOImage.timeout (IOCore.IOImage.place_mouse_over self))
    with (IOCore.IOImage.timeout self).
  rewrite Hwait.
  destruct (Qeq_bool _ _).
  - apply poll_forever_ignores_flag.
  - unfold bind, IOCore.time_time. apply poll_until_ignores_flag.
Qed.

(** C1: the code at the failing input.  An image object in polling mode
    whose flag [place_mouse] is unset, with the image on the screen: both
    the untimed and the timed loop move the pointer to the centre of the
    region found before they report it; the single check leaves the
    pointer alone. *)
Theorem polling_run_moves_pointer_with_flag_unset :
  IOCore.IOImage.place_mouse Samples.waiting_image = false /\
  fst (IOCore.IOImage.run 1 Samples.waiting_image Samples.showing_world) =
    Done (true, Some Samples.button_box) /\
  map snd
    (IOCore.log
       (snd (IOCore.IOImage.run 1 Samples.waiting_image Samples.showing_world))) =
    [IOCore.LocateOnScreen "button.png";
     IOCore.MoveTo (IOCore.mkPoint 120 210)] /\
  map snd
    (IOCore.log
       (snd (IOCore.IOImage.run 1 (Samples.timed_image 5)
               Samples.showing_world))) =
    [IOCore.Sleep (1 # 100); IOCore.LocateOnScreen "button.png";
     IOCore.MoveTo (IOCore.mkPoint 120 210)] /\
  map snd
    (IOCore.log
       (snd (IOCore.IOImage.run 1
               (IOCore.IOImage.check_for Samples.waiting_image)
               Samples.showing_world))) =
    [IOCore.LocateOnScreen "button.png"].
Proof. repeat split. Qed.

(** ** The timed polling loop *)

Lemma Qle_bool_false_lt : forall a b : Q, Qle_bool a b = false -> b < a.
Proof.
  intros a b H. apply Qnot_le_lt. intros Hle.
  apply Qle_bool_iff in Hle. congruence.
Qed.

Lemma searches_guarded_any_prev :
  forall start limit prev evs,
    Traces.searches_guarded start limit None evs ->
    Traces.searches_guarded start limit prev evs.
Proof.
  intros start limit prev [|[issued c] rest]; simpl; [trivial|].
  destruct c; intros [H1 H2]; split; trivial.
  destruct H1 as [H1 _]. discriminate.
Qed.

(** The calls of the timed loop: every search is guarded by a sleep and by
    the expiry test. *)
Lemma poll_until_guards_searches :
  forall (fuel : nat) (self : IOCore.IOImage.t) (start : Q) (w : IOCore.World),
    exists evs,
      IOCore.log (snd (IOCore.IOImage.poll_until fuel self start w)) =
        IOCore.log w ++ evs /\
      Traces.searches_guarded start (IOCore.IOImage.timeout self) None evs.
Proof.
  induction fuel as [|fuel IH]; intros self start w.
  - exists []. split; [simpl; rewrite app_nil_r; reflexivity | exact I].
  - rewrite poll_until_step. cbv zeta.
    destruct (Qle_bool _ _) eqn:Hexp.
    + exists [(IOCore.now w, IOCore.Sleep IOCore.IOImage.poll_interval)].
      split; [reflexivity | simpl; auto].
    + apply Qle_bool_false_lt in Hexp.
      set (w1 := IOCore.slept IOCore.IOImage.poll_interval w) in *.
      destruct (IOCore.screen w1 _ _) as [region|].
      * exists [(IOCore.now w, IOCore.Sleep IOCore.IOImage.poll_interval);
                (IOCore.now w1,
                 IOCore.LocateOnScreen (IOCore.IOImage.path self));
                (IOCore.now (IOCore.searched (IOCore.IOImage.path self) w1),
                 IOCore.MoveTo (IOCore.center_of region))].
        split; [simpl; rewrite <- !app_assoc; reflexivity|].
        simpl; auto.
      * destruct (IH self start
                    (IOCore.searched (IOCore.IOImage.path self) w1))
          as (evs & Hlog & Hg).
        exists ((IOCore.now w, IOCore.Sleep IOCore.IOImage.poll_interval)
                :: (IOCore.now w1,
                    IOCore.LocateOnScreen (IOCore.IOImage.path self))
                :: evs).
        split.
        -- rewrite Hlog. simpl. rewrite <- !app_assoc. reflexivity.
        -- simpl. repeat split; trivial.
           apply searches_guarded_any_prev. exact Hg.
Qed.

(** C9: in the timed branch of [IOImage.run] every screen search comes
    right after a sleep of one poll interval and an expiry test that
    passed; and when the timeout is at most one poll interval the run
    sleeps once and returns [(False, None)] without searching the screen,
    whatever the screen shows. *)
Theorem timed_poll_checks_before_searching :
  forall (self : IOCore.IOImage.t) (w : IOCore.World) (fuel : nat),
    IOCore.IOImage.wait_for self = true ->
    ~ IOCore.IOImage.timeout self == -1 ->
    (exists evs,
       IOCore.log (snd (IOCore.IOImage.run fuel self w)) =
         IOCore.log w ++ evs /\
       Traces.searches_guarded (IOCore.now w) (IOCore.IOImage.timeout self)
         None evs) /\
    (IOCore.IOImage.timeout self <= IOCore.IOImage.poll_interval ->
     0 <= IOCore.sleep_lag w (IOCore.now w) ->
     IOCore.IOImage.run (S fuel) self w =
       (Done (false, None), IOCore.slept IOCore.IOImage.poll_interval w) /\
     IOCore.log (IOCore.slept IOCore.IOImage.poll_interval w) =
       IOCore.log w ++
       [(IOCore.now w, IOCore.Sleep IOCore.IOImage.poll_interval)]).
Proof.
  intros self w fuel Hwait Hset.
  unfold IOCore.IOImage.run. rewrite Hwait.
  rewrite (Qeq_bool_false Hset).
  unfold bind at 1 2, IOCore.time_time.
  split.
  - apply poll_until_guards_searches.
  - intros Hshort Hlag. split; [|reflexivity].
    rewrite poll_until_step. cbv zeta.
    rewrite Qle_bool_true; [reflexivity|].
    simpl. lra.
Qed.

Lemma timed_poll_checks_before_searching_witness :
  IOCore.IOImage.run 1 (Samples.timed_image (1 # 200)) Samples.showing_world =
    (Done (false, None),
     IOCore.slept IOCore.IOImage.poll_interval Samples.showing_world) /\
  IOCore.log (IOCore.slept IOCore.IOImage.poll_interval Samples.showing_world) =
    IOCore.log Samples.showing_world ++
    [(IOCore.now Samples.showing_world,
      IOCore.Sleep IOCore.IOImage.poll_interval)].
Proof.
  apply (proj2 (timed_poll_checks_before_searching
                  (Samples.timed_image (1 # 200)) Samples.showing_world 0
                  eq_refl ltac:(discriminate))).
  - discriminate.
  - discriminate.
Defined.

Lemma Qle_bool_false_lt_conv :
  forall a b : Q, b < a -> Qle_bool a b = false.
Proof.
  intros a b H. destruct (Qle_bool a b) eqn:E; [|reflexivity].
  apply Qle_bool_iff in E. lra.
Qed.

(** A match reported by the timed loop was found by a search issued before
    the timeout had elapsed. *)
Lemma poll_until_found_in_time :
  forall (fuel : nat) (self : IOCore.IOImage.t) (start : Q)
         (w w' : IOCore.World) (r : option IOCore.Box),
    IOCore.IOImage.poll_until fuel self start w = (Done (true, r), w') ->
    exists (issued : Q) (region : IOCore.Box),
      r = Some region /\
      IOCore.screen w (IOCore.IOImage.path self) issued = Some region /\
      issued - start < IOCore.IOImage.timeout self.
Proof.
  induction fuel as [|fuel IH]; intros self start w w' r; [discriminate|].
  rewrite poll_until_step. cbv zeta.
  destruct (Qle_bool _ _) eqn:Hexp; [discriminate|].
  apply Qle_bool_false_lt in Hexp.
  set (w1 := IOCore.slept IOCore.IOImage.poll_interval w) in *.
  destruct (IOCore.screen w1 _ _) as [region|] eqn:Hscr.
  - intros H. injection H as Hr _. subst r.
    exists (IOCore.now w1), region. auto.
  - intros H. apply IH in H. exact H.
Qed.

(** The rounds of the timed loop that decide nothing are skipped. *)
Lemma poll_until_undecided :
  forall (k fuel : nat) (self : IOCore.IOImage.t) (start : Q)
         (w : IOCore.World),
    Patterns.undecided k self start w ->
    IOCore.IOImage.poll_until (k + fuel) self start w =
    IOCore.IOImage.poll_until fuel self start (Patterns.after_rounds k self w).
Proof.
  induction k as [|k IH]; intros fuel self start w Hund; [reflexivity|].
  destruct Hund as (Hearly & Hmiss & Hrest).
  cbn [Nat.add]. rewrite poll_until_step. cbv zeta.
  rewrite (Qle_bool_false_lt_conv Hearly), Hmiss.
  cbn [Patterns.after_rounds]. apply IH. exact Hrest.
Qed.

(** C2, as the code has it: [run] in polling mode with a timeout, after
    [k] rounds that decided nothing.  If at the next expiry test the time
    elapsed since the start has reached the timeout, equality included,
    [run] returns [(False, None)] there, without a further search.  If it
    has not, and the search that follows finds the image, [run] returns
    [(True, region)], however long that search takes. *)
Theorem timed_poll_expiry_reports_not_found :
  forall (self : IOCore.IOImage.t) (w : IOCore.World) (k fuel : nat),
    IOCore.IOImage.wait_for self = true ->
    ~ IOCore.IOImage.timeout self == -1 ->
    Patterns.undecided k self (IOCore.now w) w ->
    (k < fuel)%nat ->
    let v1 :=
      IOCore.slept IOCore.IOImage.poll_interval
        (Patterns.after_rounds k self w) in
    (IOCore.IOImage.timeout self <= IOCore.now v1 - IOCore.now w ->
     IOCore.IOImage.run fuel self w = (Done (false, None), v1)) /\
    (forall region : IOCore.Box,
       IOCore.now v1 - IOCore.now w < IOCore.IOImage.timeout self ->
       IOCore.screen v1 (IOCore.IOImage.path self) (IOCore.now v1) =
         Some region ->
       IOCore.IOImage.run fuel self w =
         (Done (true, Some region),
          IOCore.moved (IOCore.center_of region)
            (IOCore.searched (IOCore.IOImage.path self) v1))).
Proof.
  intros self w k fuel Hwait Hset Hund Hfuel v1.
  assert (Hrun : IOCore.IOImage.run fuel self w =
                 IOCore.IOImage.poll_until (S (fuel - S k)) self (IOCore.now w)
                   (Patterns.after_rounds k self w)).
  { unfold IOCore.IOImage.run. rewrite Hwait, (Qeq_bool_false Hset).
    unfold bind at 1, IOCore.time_time.
    replace fuel with (k + S (fuel - S k))%nat at 1 by lia.
    apply poll_until_undecided. exact Hund. }
  rewrite Hrun, poll_until_step. cbv zeta. fold v1. split.
  - intros Hreached. rewrite (Qle_bool_true Hreached). reflexivity.
  - intros region Hearly Hshown.
    rewrite (Qle_bool_false_lt_conv Hearly), Hshown. reflexivity.
Qed.

Lemma timed_poll_expiry_reports_not_found_witness :
  IOCore.IOImage.run 3 (Samples.timed_image (3 # 100)) Samples.blank_world =
    (Done (false, None),
     IOCore.slept IOCore.IOImage.poll_interval
       (Patterns.after_rounds 2 (Samples.timed_image (3 # 100))
          Samples.blank_world)).
Proof.
  apply (proj1 (@timed_poll_expiry_reports_not_found
                  (Samples.timed_image (3 # 100)) Samples.blank_world 2 3
                  eq_refl ltac:(discriminate)
                  ltac:(simpl; repeat split) ltac:(lia))).
  vm_compute. discriminate.
Defined.

(** C2 as stated fails where a search outlasts the time left: with a
    timeout of 0.3 s, the image on the screen and searches of half a
    second, the first search is issued 0.01 s after the start and finds
    the image 0.51 s after the start, when the timeout has long elapsed;
    [run] returns [(True, region)], not [(False, None)]. *)
Lemma slow_search_finds_after_timeout :
  IOCore.IOImage.wait_for (Samples.timed_image (3 # 10)) = true /\
  IOCore.IOImage.timeout (Samples.timed_image (3 # 10)) == 3 # 10 /\
  IOCore.now
    (IOCore.searched "button.png"
       (IOCore.slept IOCore.IOImage.poll_interval
          MoreSamples.slow_showing_world)) -
  IOCore.now MoreSamples.slow_showing_world == 51 # 100 /\
  IOCore.IOImage.timeout (Samples.timed_image (3 # 10)) <=
  IOCore.now
    (IOCore.searched "button.png"
       (IOCore.slept IOCore.IOImage.poll_interval
          MoreSamples.slow_showing_world)) -
  IOCore.now MoreSamples.slow_showing_world /\
  IOCore.IOImage.run 1 (Samples.timed_image (3 # 10))
    MoreSamples.slow_showing_world =
    (Done (true, Some Samples.button_box),
     IOCore.moved (IOCore.center_of Samples.button_box)
       (IOCore.searched "button.png"
          (IOCore.slept IOCore.IOImage.poll_interval
             MoreSamples.slow_showing_world))) /\
  fst (IOCore.IOImage.run 1 (Samples.timed_image (3 # 10))
         MoreSamples.slow_showing_world) <> Done (false, None).
Proof.
  split; [reflexivity|]. split; [reflexivity|]. split; [reflexivity|].
  split; [vm_compute; discriminate|]. split; [reflexivity|].
  vm_compute. discriminate.
Qed.

(** ** How long the timed loop runs when the image never shows *)

Section Absent.

Variable self : IOCore.IOImage.t.
Variable start : Q.

(** [L] bounds the overrun of a sleep, [C] the length of a search. *)
Variables L C : Q.

Lemma steady_issue :
  forall c d w,
    Traces.steady self L C w -> Traces.steady self L C (IOCore.issue c d w).
Proof.
  intros c d w (Hc & Hl & Hs & Ha).
  split; [apply causal_issue; exact Hc|]. auto.
Qed.

(** With [n] poll intervals enough to cover what is left of the timeout,
    [n + 1] rounds end the loop, and it ends between the timeout and the
    timeout plus one interval, one overrun and one search. *)
Lemma poll_until_absent :
  forall (n : nat) (w : IOCore.World),
    Traces.steady self L C w ->
    IOCore.now w - start < IOCore.IOImage.timeout self + C ->
    IOCore.IOImage.timeout self - (IOCore.now w - start) <=
      inject_Z (Z.of_nat n) * IOCore.IOImage.poll_interval ->
    forall extra : nat,
    exists w' : IOCore.World,
      IOCore.IOImage.poll_until (S (n + extra)) self start w =
        (Done (false, None), w') /\
      IOCore.IOImage.timeout self <= IOCore.now w' - start /\
      IOCore.now w' - start <
        IOCore.IOImage.timeout self + IOCore.IOImage.poll_interval + L + C.
Proof.
  induction n as [|n IH]; intros w Hst Hinv Hleft extra;
    pose proof Hst as (Hc & Hl & Hs & Ha);
    pose proof (IOCore.lag_nonneg Hc (IOCore.now w)) as Hlag0;
    pose proof (Hl (IOCore.now w)) as HlagL;
    rewrite poll_until_step; cbv zeta;
    set (w1 := IOCore.slept IOCore.IOImage.poll_interval w);
    assert (Hnow1 : IOCore.now w1 ==
                    IOCore.now w +
                    (IOCore.IOImage.poll_interval +
                     IOCore.sleep_lag w (IOCore.now w)))
      by reflexivity;
    unfold IOCore.IOImage.poll_interval in *.
  - change (inject_Z (Z.of_nat 0)) with 0 in Hleft.
    rewrite Qle_bool_true by lra.
    exists w1. split; [reflexivity|]. split; lra.
  - destruct (Qle_bool (IOCore.IOImage.timeout self) (IOCore.now w1 - start))
      eqn:Hexp.
    + apply Qle_bool_iff in Hexp.
      exists w1. split; [reflexivity|]. split; lra.
    + apply Qle_bool_false_lt in Hexp.
      change (IOCore.screen w1) with (IOCore.screen w). rewrite Ha.
      set (w2 := IOCore.searched (IOCore.IOImage.path self) w1).
      pose proof (IOCore.locate_nonneg Hc (IOCore.now w1)) as Hc0.
      pose proof (Hs (IOCore.now w1)) as HcC.
      assert (Hnow2 : IOCore.now w2 ==
                      IOCore.now w1 + IOCore.locate_cost w (IOCore.now w1))
        by reflexivity.
      apply IH.
      * apply steady_issue. apply steady_issue. exact Hst.
      * lra.
      * rewrite Nat2Z.inj_succ in Hleft. unfold Z.succ in Hleft.
        rewrite inject_Z_plus in Hleft.
        change (inject_Z 1) with 1 in Hleft. lra.
Qed.

End Absent.

(** Some whole number of poll intervals covers any timeout. *)
Lemma intervals_cover :
  forall t : Q, 0 < t ->
    exists n : nat, t <= inject_Z (Z.of_nat n) * IOCore.IOImage.poll_interval.
Proof.
  intros t Ht.
  pose proof (Qle_ceiling (t * 100)) as Hc.
  assert (Hpos : (0 <= Qceiling (t * 100))%Z).
  { rewrite Zle_Qle. change (inject_Z 0) with 0. lra. }
  exists (Z.to_nat (Qceiling (t * 100))).
  rewrite Z2Nat.id by exact Hpos.
  unfold IOCore.IOImage.poll_interval. lra.
Qed.

(** The timed run on an image that never shows, in a world whose sleeps
    overrun by at most [L] and whose searches take at most [C]. *)
Lemma run_absent_bounds :
  forall (self : IOCore.IOImage.t) (w : IOCore.World) (L C : Q),
    IOCore.IOImage.wait_for self = true ->
    0 < IOCore.IOImage.timeout self ->
    Traces.steady self L C w ->
    exists fuel0 : nat,
      forall fuel : nat, (fuel0 <= fuel)%nat ->
        exists w' : IOCore.World,
          IOCore.IOImage.run fuel self w = (Done (false, None), w') /\
          IOCore.IOImage.timeout self <= IOCore.now w' - IOCore.now w /\
          IOCore.now w' - IOCore.now w <
            IOCore.IOImage.timeout self + IOCore.IOImage.poll_interval + L + C.
Proof.
  intros self w L C Hwait Hpos Hst.
  destruct (intervals_cover Hpos) as [n Hn].
  exists (S n). intros fuel Hfuel.
  replace fuel with (S (n + (fuel - S n))) by lia.
  unfold IOCore.IOImage.run. rewrite Hwait.
  rewrite Qeq_bool_false by (intros E; rewrite E in Hpos; discriminate).
  unfold bind at 1, IOCore.time_time.
  apply poll_until_absent with (L := L) (C := C); trivial.
  - destruct Hst as (Hc & _ & Hs & _).
    pose proof (IOCore.locate_nonneg Hc 0). pose proof (Hs 0). lra.
  - lra.
Qed.

(** Where sleeps are exact and searches take no time, the run ends before
    the timeout plus one poll interval. *)
Lemma run_absent_ideal :
  forall (self : IOCore.IOImage.t) (t : Q),
    0 < t ->
    exists fuel0 : nat,
      forall fuel : nat, (fuel0 <= fuel)%nat ->
        exists w' : IOCore.World,
          IOCore.IOImage.run fuel (IOCore.IOImage.set_timeout
                                     (IOCore.IOImage.wait_for_presence self) t)
            Samples.blank_world = (Done (false, None), w') /\
          t <= IOCore.now w' /\
          IOCore.now w' < t + IOCore.IOImage.poll_interval.
Proof.
  intros self t Ht.
  destruct (@run_absent_bounds
              (IOCore.IOImage.set_timeout
                 (IOCore.IOImage.wait_for_presence self) t)
              Samples.blank_world 0 0 eq_refl Ht) as [fuel0 H].
  { repeat split; intros u; simpl; try reflexivity; discriminate. }
  exists fuel0. intros fuel Hfuel.
  destruct (H fuel Hfuel) as (w' & Hrun & Hlo & Hhi).
  exists w'. split; [exact Hrun|].
  simpl in Hlo, Hhi. split; lra.
Qed.

(** C3, as the code has it: with a timeout [t > 0] and an image that never
    shows, the timed run ends, with [(False, None)], no earlier than [t]
    and earlier than [t] plus one poll interval plus the longest overrun of
    a sleep plus the longest screen search.  With exact sleeps and searches
    that take no time ([L = 0], [C = 0]) that is [t] plus one poll
    interval. *)
Theorem timed_poll_absent_image_duration :
  forall (self : IOCore.IOImage.t) (w : IOCore.World) (L C : Q),
    IOCore.IOImage.wait_for self = true ->
    0 < IOCore.IOImage.timeout self ->
    IOCore.causal w ->
    (forall t, IOCore.sleep_lag w t <= L) ->
    (forall t, IOCore.locate_cost w t <= C) ->
    (forall t, IOCore.screen w (IOCore.IOImage.path self) t = None) ->
    exists fuel0 : nat,
      forall fuel : nat, (fuel0 <= fuel)%nat ->
        exists w' : IOCore.World,
          IOCore.IOImage.run fuel self w = (Done (false, None), w') /\
          IOCore.IOImage.timeout self <= IOCore.now w' - IOCore.now w /\
          IOCore.now w' - IOCore.now w <
            IOCore.IOImage.timeout self + IOCore.IOImage.poll_interval + L + C.
Proof.
  intros self w L C Hwait Hpos Hc Hl Hs Ha.
  apply run_absent_bounds; trivial. repeat split; trivial; apply Hc.
Qed.

Lemma timed_poll_absent_image_duration_witness :
  exists fuel0 : nat,
    forall fuel : nat, (fuel0 <= fuel)%nat ->
      exists w' : IOCore.World,
        IOCore.IOImage.run fuel (Samples.timed_image 1)
          Samples.slow_search_world = (Done (false, None), w') /\
        1 <= IOCore.now w' - IOCore.now Samples.slow_search_world /\
        IOCore.now w' - IOCore.now Samples.slow_search_world <
          1 + IOCore.IOImage.poll_interval + 0 + (1 # 2).
Proof.
  apply (@timed_poll_absent_image_duration (Samples.timed_image 1)
           Samples.slow_search_world 0 (1 # 2)).
  - reflexivity.
  - reflexivity.
  - split; intros t; simpl; discriminate.
  - intros t; simpl; discriminate.
  - intros t; simpl; discriminate.
  - intros t; reflexivity.
Defined.

(** C3 as stated fails where a screen search takes time: with a timeout of
    one second, an image that never shows, exact sleeps and searches of
    half a second, the run reports not-found 1.03 seconds after it
    started, later than the timeout plus one poll interval. *)
Lemma slow_search_overshoots_one_interval :
  IOCore.IOImage.wait_for (Samples.timed_image 1) = true /\
  0 < IOCore.IOImage.timeout (Samples.timed_image 1) /\
  (forall t,
     IOCore.screen Samples.slow_search_world
       (IOCore.IOImage.path (Samples.timed_image 1)) t = None) /\
  fst (IOCore.IOImage.run 3 (Samples.timed_image 1) Samples.slow_search_world) =
    Done (false, None) /\
  IOCore.now
    (snd (IOCore.IOImage.run 3 (Samples.timed_image 1)
            Samples.slow_search_world)) -
  IOCore.now Samples.slow_search_world == 103 # 100 /\
  ~ (IOCore.now
       (snd (IOCore.IOImage.run 3 (Samples.timed_image 1)
               Samples.slow_search_world)) -
     IOCore.now Samples.slow_search_world <=
     IOCore.IOImage.timeout (Samples.timed_image 1) +
     IOCore.IOImage.poll_interval).
Proof.
  repeat split.
  vm_compute. intros H. apply H. reflexivity.
Qed.

(** ** Element lookup *)

Local Open Scope nat_scope.

(** C6: [Web.find] raises the unsupported-strategy [ValueError] for every
    strategy string outside the five of [By], and for each of the five
    returns a locator on the page of the running session. *)
Theorem find_accepts_five_strategies :
  forall (selector by_ : string) (s : WebCore.St),
    (~ In by_ WebCore.By ->
     WebCore.find selector by_ s =
       (Raise (ValueError ("`" ++ by_ ++ "` is unsupported")), s)) /\
    (In by_ WebCore.By ->
     forall pg : WebCore.Handle,
       WebCore.page (fst s) = Some pg ->
       exists target : string,
         WebCore.find selector by_ s = (Done (WebCore.mkLocator pg target), s)).
Proof.
  intros selector by_ s. unfold WebCore.find, WebCore.By. split.
  - intros Hout.
    repeat match goal with
           | |- context [String.eqb by_ ?k] =>
               destruct (String.eqb_spec by_ k) as [E|_];
               [exfalso; apply Hout; subst by_; simpl; tauto|]
           end.
    reflexivity.
  - intros Hin pg Hpg. simpl in Hin.
    unfold bind, WebCore.getattr, ret.
    destruct Hin as [E|[E|[E|[E|[E|[]]]]]]; subst by_; simpl; rewrite Hpg;
      eexists; reflexivity.
Qed.

Lemma find_accepts_five_strategies_witness :
  WebCore.find "submit" "name" (Samples.live_web 3, Samples.open_web) =
    (Raise (ValueError "`name` is unsupported"),
     (Samples.live_web 3, Samples.open_web)) /\
  exists target : string,
    WebCore.find "submit" "id" (Samples.live_web 3, Samples.open_web) =
      (Done (WebCore.mkLocator 3 target),
       (Samples.live_web 3, Samples.open_web)).
Proof.
  split.
  - apply (proj1 (find_accepts_five_strategies "submit" "name"
                    (Samples.live_web 3, Samples.open_web))).
    simpl. intros [H|[H|[H|[H|[H|[]]]]]]; discriminate.
  - apply (proj2 (find_accepts_five_strategies "submit" "id"
                    (Samples.live_web 3, Samples.open_web))).
    + simpl. tauto.
    + reflexivity.
Defined.

(** ** The scoped browser session *)

(** [start] on an object, when the navigation succeeds: the four session
    objects are acquired with consecutive handles and bound. *)
Lemma start_succeeds :
  forall (self : WebCore.Web) (w0 : WebCore.World)
         (resp : option WebCore.Response),
    WebCore.navigate w0 (WebCore.url self) = inr resp ->
    let h := WebCore.next_handle w0 in
    exists s1 : WebCore.St,
      WebCore.start (self, w0) = (Done tt, s1) /\
      WebCore.calls (snd s1) =
        WebCore.calls w0 ++
        WebCore.startup h (WebCore.headless self) (WebCore.url self) /\
      WebCore.playwright (fst s1) = Some h /\
      WebCore.browser (fst s1) = Some (S h) /\
      WebCore.context (fst s1) = Some (S (S h)) /\
      WebCore.page (fst s1) = Some (S (S (S h))).
Proof.
  intros self w0 resp Hnav h.
  unfold WebCore.start, WebCore.goto, bind, WebCore.acquire, WebCore.setattr,
    WebCore.getattr, WebCore.get, WebCore.emit. simpl.
  rewrite Hnav. eexists. split; [reflexivity|]. simpl.
  rewrite <- !app_assoc. repeat split.
Qed.

(** [close] on an object whose four session attributes are bound. *)
Lemma close_releases :
  forall (s : WebCore.St) (pw br ctx pg : WebCore.Handle),
    WebCore.playwright (fst s) = Some pw ->
    WebCore.browser (fst s) = Some br ->
    WebCore.context (fst s) = Some ctx ->
    WebCore.page (fst s) = Some pg ->
    exists s' : WebCore.St,
      WebCore.close s = (Done tt, s') /\
      WebCore.calls (snd s') =
        WebCore.calls (snd s) ++ WebCore.teardown pw br ctx pg.
Proof.
  intros s pw br ctx pg Hpw Hbr Hctx Hpg.
  unfold WebCore.close, bind, WebCore.getattr, WebCore.emit. simpl.
  rewrite Hpg. simpl. rewrite Hctx. simpl. rewrite Hbr. simpl. rewrite Hpw.
  eexists. split; [reflexivity|]. simpl. rewrite <- !app_assoc. reflexivity.
Qed.

Lemma pick_app :
  forall (A B : Type) (f : A -> option B) (l1 l2 : list A),
    WebCore.pick f (l1 ++ l2) = WebCore.pick f l1 ++ WebCore.pick f l2.
Proof.
  intros A B f l1 l2. induction l1 as [|a l1 IH]; simpl; [reflexivity|].
  destruct (f a); simpl; rewrite IH; reflexivity.
Qed.

Section Scoped.

Variable A : Type.
Variable body : M WebCore.St A.
Hypothesis body_keeps_session : WebCore.keeps_session body.


End Scoped.

Lemma failing_body_keeps_session : WebCore.keeps_session Samples.failing_body.
Proof.
  intros [self w] s' o.
  unfold Samples.failing_body, WebCore.redirect, WebCore.goto, bind, raise,
    WebCore.setattr, WebCore.getattr, WebCore.get, WebCore.emit. simpl.
  destruct (WebCore.page self) eqn:Hpg; simpl.
  - destruct (WebCore.navigate w _); simpl;
      intros H; injection H as _ Hs; subst s'; simpl; auto.
  - intros H; injection H as _ Hs; subst s'; simpl; auto.
Qed.



(** The block of [failing_body] run to its end: the exception comes out of
    the [with] statement after one teardown. *)
Example failing_block_trace :
  fst (WebCore.with_web Samples.failing_body
         (WebCore.init "https://example.org", Samples.open_web)) =
    Raise (UserError "boom") /\
  WebCore.calls
    (snd (snd (WebCore.with_web Samples.failing_body
                 (WebCore.init "https://example.org", Samples.open_web)))) =
    WebCore.startup 0 false "https://example.org" ++
    [WebCore.Goto 3 "https://example.org/next"] ++
    WebCore.teardown 0 1 2 3.
Proof. split; reflexivity. Qed.

(** When the navigation of [start] fails, [__enter__] raises, the block is
    not entered and [__exit__] is not called: what [start] had acquired is
    not released. *)
Lemma failed_enter_skips_teardown :
  forall (A : Type) (body : M WebCore.St A),
    fst (WebCore.with_web body
           (WebCore.init "https://example.org", Samples.closed_web)) =
      Raise (PlaywrightError "net::ERR_NAME_NOT_RESOLVED") /\
    WebCore.calls
      (snd (snd (WebCore.with_web body
                   (WebCore.init "https://example.org", Samples.closed_web)))) =
      WebCore.startup 0 false "https://example.org".
Proof. intros A body. split; reflexivity. Qed.

(** * Further properties of [io/core.py] *)

Local Open Scope Q_scope.

(** ** The single check of [IOImage.run] *)

Lemma run_single_check :
  forall (fuel : nat) (self : IOCore.IOImage.t) (w : IOCore.World),
    IOCore.IOImage.wait_for self = false ->
    IOCore.IOImage.run fuel self w =
      let w1 := IOCore.searched (IOCore.IOImage.path self) w in
      match IOCore.screen w (IOCore.IOImage.path self) (IOCore.now w) with
      | Some region =>
          (Done (true, Some region),
           if IOCore.IOImage.place_mouse self
           then IOCore.moved (IOCore.center_of region) w1
           else w1)
      | None => (Done (false, None), w1)
      end.
Proof.
  intros fuel self w Hwait. unfold IOCore.IOImage.run. rewrite Hwait.
  unfold bind at 1. rewrite is_existing_eq. cbv zeta.
  destruct (IOCore.screen w _ _) as [region|]; [|reflexivity].
  cbn [fst snd andb]. destruct (IOCore.IOImage.place_mouse self); reflexivity.
Qed.

(** Without [wait_for], [run] makes one screen search and returns what it
    found; it moves the pointer, to the centre of the region, exactly when
    the image was found and the flag [place_mouse] is set.  Fuel plays no
    part. *)
Theorem single_check_moves_iff_flag :
  forall (fuel : nat) (self : IOCore.IOImage.t) (w : IOCore.World),
    IOCore.IOImage.wait_for self = false ->
    IOCore.IOImage.run fuel self w =
      let w1 := IOCore.searched (IOCore.IOImage.path self) w in
      match IOCore.screen w (IOCore.IOImage.path self) (IOCore.now w) with
      | Some region =>
          (Done (true, Some region),
           if IOCore.IOImage.place_mouse self
           then IOCore.moved (IOCore.center_of region) w1
           else w1)
      | None => (Done (false, None), w1)
      end.
Proof. exact run_single_check. Qed.

Lemma single_check_moves_iff_flag_witness :
  IOCore.IOImage.run 0
    (IOCore.IOImage.place_mouse_over
       (IOCore.IOImage.check_for Samples.waiting_image))
    Samples.showing_world =
    (Done (true, Some Samples.button_box),
     IOCore.moved (IOCore.center_of Samples.button_box)
       (IOCore.searched "button.png" Samples.showing_world)).
Proof.
  apply (@single_check_moves_iff_flag 0
           (IOCore.IOImage.place_mouse_over
              (IOCore.IOImage.check_for Samples.waiting_image))
           Samples.showing_world).
  reflexivity.
Defined.

(** An image object fresh from its constructor is in single-check mode
    with the flag unset: its [run] is one screen search for the path it was
    given, and never a pointer move. *)
Theorem fresh_image_checks_once :
  forall (path_exists path_isfile : string -> bool) (p : string)
         (self : IOCore.IOImage.t) (fuel : nat) (w : IOCore.World),
    IOCore.IOImage.init path_exists path_isfile p = Done self ->
    path_exists p = true /\ path_isfile p = true /\
    snd (IOCore.IOImage.run fuel self w) = IOCore.searched p w /\
    fst (IOCore.IOImage.run fuel self w) =
      Done match IOCore.screen w p (IOCore.now w) with
           | Some region => (true, Some region)
           | None => (false, None)
           end.
Proof.
  intros pe pf p self fuel w Hinit. unfold IOCore.IOImage.init in Hinit.
  destruct (pe p); [|discriminate]. destruct (pf p); [|discriminate].
  injection Hinit as Hself. subst self.
  rewrite run_single_check by reflexivity.
  cbn [IOCore.IOImage.path IOCore.IOImage.place_mouse]. cbv zeta.
  destruct (IOCore.screen w p (IOCore.now w)); repeat split.
Qed.

Lemma fresh_image_checks_once_witness :
  true = true /\ true = true /\
  snd (IOCore.IOImage.run 0 (IOCore.IOImage.check_for Samples.waiting_image)
         Samples.showing_world) =
    IOCore.searched "button.png" Samples.showing_world /\
  fst (IOCore.IOImage.run 0 (IOCore.IOImage.check_for Samples.waiting_image)
         Samples.showing_world) =
    Done (true, Some Samples.button_box).
Proof.
  apply (@fresh_image_checks_once (fun _ => true) (fun _ => true)
           "button.png" (IOCore.IOImage.check_for Samples.waiting_image)
           0 Samples.showing_world eq_refl).
Defined.

(** ** What [IOImage.run] does not depend on *)

Lemma poll_forever_ignores_tolerance :
  forall (fuel : nat) (self : IOCore.IOImage.t) (tol : Z) (w : IOCore.World),
    IOCore.IOImage.poll_forever fuel (IOCore.IOImage.set_tolerance self tol) w =
    IOCore.IOImage.poll_forever fuel self w.
Proof.
  induction fuel as [|fuel IH]; intros self tol w; [reflexivity|].
  rewrite !poll_forever_step.
  change (IOCore.IOImage.path (IOCore.IOImage.set_tolerance self tol))
    with (IOCore.IOImage.path self).
  cbv zeta. destruct (IOCore.screen _ _ _); [reflexivity|]. apply IH.
Qed.

Lemma poll_until_ignores_tolerance :
  forall (fuel : nat) (self : IOCore.IOImage.t) (tol : Z) (start : Q)
         (w : IOCore.World),
    IOCore.IOImage.poll_until fuel (IOCore.IOImage.set_tolerance self tol)
      start w =
    IOCore.IOImage.poll_until fuel self start w.
Proof.
  induction fuel as [|fuel IH]; intros self tol start w; [reflexivity|].
  rewrite !poll_until_step.
  change (IOCore.IOImage.path (IOCore.IOImage.set_tolerance self tol))
    with (IOCore.IOImage.path self).
  change (IOCore.IOImage.timeout (IOCore.IOImage.set_tolerance self tol))
    with (IOCore.IOImage.timeout self).
  cbv zeta. destruct (Qle_bool _ _); [reflexivity|].
  destruct (IOCore.screen _ _ _); [reflexivity|]. apply IH.
Qed.

(** The tolerance set by [set_tolerance] is stored and never read: [run]
    does the same, in every mode, whatever tolerance was set. *)
Theorem run_ignores_tolerance :
  forall (fuel : nat) (self : IOCore.IOImage.t) (tol : Z) (w : IOCore.World),
    IOCore.IOImage.tolerance (IOCore.IOImage.set_tolerance self tol) = tol /\
    IOCore.IOImage.run fuel (IOCore.IOImage.set_tolerance self tol) w =
    IOCore.IOImage.run fuel self w.
Proof.
  intros fuel self tol w. split; [reflexivity|].
  unfold IOCore.IOImage.run.
  change (IOCore.IOImage.wait_for (IOCore.IOImage.set_tolerance self tol))
    with (IOCore.IOImage.wait_for self).
  change (IOCore.IOImage.timeout (IOCore.IOImage.set_tolerance self tol))
    with (IOCore.IOImage.timeout self).
  change (IOCore.IOImage.place_mouse (IOCore.IOImage.set_tolerance self tol))
    with (IOCore.IOImage.place_mouse self).
  destruct (IOCore.IOImage.wait_for self).
  - destruct (Qeq_bool _ _).
    + apply poll_forever_ignores_tolerance.
    + unfold bind, IOCore.time_time. apply poll_until_ignores_tolerance.
  - unfold bind. rewrite !is_existing_eq. reflexivity.
Qed.

(** ** The missing image is never an exception of [IOImage.run] *)

(** The exceptions of the library calls other than the three modelled
    ([ImageNotFoundException] of the search, [ValueError] of a negative
    sleep, [TypeError] of the centre of [None]) are outside this model;
    within it, neither loop raises. *)
Lemma poll_forever_never_raises :
  forall (fuel : nat) (self : IOCore.IOImage.t) (w : IOCore.World) (e : Exn),
    fst (IOCore.IOImage.poll_forever fuel self w) <> Raise e.
Proof.
  induction fuel as [|fuel IH]; intros self w e; [discriminate|].
  rewrite poll_forever_step. cbv zeta.
  destruct (IOCore.screen _ _ _); [discriminate|]. apply IH.
Qed.

Lemma poll_until_never_raises :
  forall (fuel : nat) (self : IOCore.IOImage.t) (start : Q)
         (w : IOCore.World) (e : Exn),
    fst (IOCore.IOImage.poll_until fuel self start w) <> Raise e.
Proof.
  induction fuel as [|fuel IH]; intros self start w e; [discriminate|].
  rewrite poll_until_step. cbv zeta.
  destruct (Qle_bool _ _); [discriminate|].
  destruct (IOCore.screen _ _ _); [discriminate|]. apply IH.
Qed.

(** In no mode does [run] let the [ImageNotFoundException] of a screen
    search out, however many searches miss: every search is made through
    [is_existing], which catches it. *)
Theorem run_never_raises_image_not_found :
  forall (fuel : nat) (self : IOCore.IOImage.t) (w : IOCore.World),
    fst (IOCore.IOImage.run fuel self w) <> Raise ImageNotFoundException.
Proof.
  intros fuel self w.
  destruct (IOCore.IOImage.wait_for self) eqn:Hwait.
  - unfold IOCore.IOImage.run. rewrite Hwait. destruct (Qeq_bool _ _).
    + apply poll_forever_never_raises.
    + unfold bind, IOCore.time_time. apply poll_until_never_raises.
  - rewrite run_single_check by exact Hwait. cbv zeta.
    destruct (IOCore.screen _ _ _); discriminate.
Qed.

Lemma run_never_raises_image_not_found_witness :
  fst (IOCore.IOImage.run 3 (Samples.timed_image 1) Samples.blank_world) <>
    Raise ImageNotFoundException.
Proof.
  apply (@run_never_raises_image_not_found 3 (Samples.timed_image 1)
           Samples.blank_world).
Defined.

(** ** The untimed polling loop *)

Lemma searches_app :
  forall l1 l2 : list (Q * IOCore.Call),
    List.length (filter Patterns.is_search (l1 ++ l2)) =
    (List.length (filter Patterns.is_search l1) +
     List.length (filter Patterns.is_search l2))%nat.
Proof. intros l1 l2. rewrite filter_app, length_app. reflexivity. Qed.

Lemma poll_forever_absent :
  forall (fuel : nat) (self : IOCore.IOImage.t) (w : IOCore.World),
    (forall t, IOCore.screen w (IOCore.IOImage.path self) t = None) ->
    fst (IOCore.IOImage.poll_forever fuel self w) = OutOfFuel /\
    List.length
      (filter Patterns.is_search
         (IOCore.log (snd (IOCore.IOImage.poll_forever fuel self w)))) =
    (List.length (filter Patterns.is_search (IOCore.log w)) + fuel)%nat.
Proof.
  induction fuel as [|fuel IH]; intros self w Habs.
  - split; [reflexivity|]. simpl. lia.
  - rewrite poll_forever_step. cbv zeta. rewrite Habs.
    destruct (IH self
                (IOCore.slept IOCore.IOImage.poll_interval
                   (IOCore.searched (IOCore.IOImage.path self) w)) Habs)
      as [Hout Hcount].
    split; [exact Hout|]. rewrite Hcount.
    cbn [IOCore.slept IOCore.searched IOCore.issue IOCore.log].
    rewrite !searches_app. simpl. lia.
Qed.

(** With [wait_for] set and no timeout (the value -1, also when it was
    given to [set_timeout]), [run] on an image that never shows does not
    return: whatever the number of rounds allowed, they are used up, one
    screen search each. *)
Theorem untimed_poll_never_gives_up :
  forall (fuel : nat) (self : IOCore.IOImage.t) (w : IOCore.World),
    IOCore.IOImage.wait_for self = true ->
    IOCore.IOImage.timeout self == -1 ->
    (forall t, IOCore.screen w (IOCore.IOImage.path self) t = None) ->
    fst (IOCore.IOImage.run fuel self w) = OutOfFuel /\
    List.length
      (filter Patterns.is_search
         (IOCore.log (snd (IOCore.IOImage.run fuel self w)))) =
    (List.length (filter Patterns.is_search (IOCore.log w)) + fuel)%nat.
Proof.
  intros fuel self w Hwait Hnone Habs.
  unfold IOCore.IOImage.run. rewrite Hwait.
  apply Qeq_bool_iff in Hnone. rewrite Hnone.
  apply poll_forever_absent. exact Habs.
Qed.

Lemma untimed_poll_never_gives_up_witness :
  fst (IOCore.IOImage.run 7 (IOCore.IOImage.set_timeout
                               (Samples.timed_image 3) (-1))
         Samples.blank_world) = OutOfFuel /\
  List.length
    (filter Patterns.is_search
       (IOCore.log
          (snd (IOCore.IOImage.run 7 (IOCore.IOImage.set_timeout
                                        (Samples.timed_image 3) (-1))
                  Samples.blank_world)))) =
  (List.length (filter Patterns.is_search (IOCore.log Samples.blank_world)) + 7)%nat.
Proof.
  apply (@untimed_poll_never_gives_up 7
           (IOCore.IOImage.set_timeout (Samples.timed_image 3) (-1))
           Samples.blank_world).
  - reflexivity.
  - reflexivity.
  - intros t. reflexivity.
Defined.

(** Some whole number of poll intervals covers any length of time. *)
Lemma intervals_cover_any :
  forall q : Q,
    exists n : nat, q <= inject_Z (Z.of_nat n) * IOCore.IOImage.poll_interval.
Proof.
  intros q. destruct (Qlt_le_dec 0 q) as [Hpos|Hneg].
  - apply intervals_cover. exact Hpos.
  - exists 0%nat. change (inject_Z (Z.of_nat 0)) with 0. lra.
Qed.

Lemma poll_forever_finds :
  forall (n : nat) (self : IOCore.IOImage.t) (T : Q) (w : IOCore.World),
    IOCore.causal w ->
    Patterns.shows_from self T w ->
    T - IOCore.now w <= inject_Z (Z.of_nat n) * IOCore.IOImage.poll_interval ->
    forall extra : nat,
    exists (region : IOCore.Box) (issued moved_at : Q) (w' : IOCore.World)
           (before : list (Q * IOCore.Call)),
      IOCore.IOImage.poll_forever (S (n + extra)) self w =
        (Done (true, Some region), w') /\
      IOCore.screen w (IOCore.IOImage.path self) issued = Some region /\
      IOCore.log w' =
        before ++
        [(issued, IOCore.LocateOnScreen (IOCore.IOImage.path self));
         (moved_at, IOCore.MoveTo (IOCore.center_of region))].
Proof.
  induction n as [|n IH]; intros self T w Hc Hshow Hleft extra;
    rewrite poll_forever_step; cbv zeta;
    destruct (IOCore.screen w (IOCore.IOImage.path self) (IOCore.now w))
      as [region|] eqn:Hscr.
  - exists region, (IOCore.now w),
      (IOCore.now (IOCore.searched (IOCore.IOImage.path self) w)),
      (IOCore.moved (IOCore.center_of region)
         (IOCore.searched (IOCore.IOImage.path self) w)), (IOCore.log w).
    split; [reflexivity|]. split; [exact Hscr|].
    simpl. rewrite <- app_assoc. reflexivity.
  - exfalso. change (inject_Z (Z.of_nat 0)) with 0 in Hleft.
    destruct (Hshow (IOCore.now w)) as [region Hr]; [lra|]. congruence.
  - exists region, (IOCore.now w),
      (IOCore.now (IOCore.searched (IOCore.IOImage.path self) w)),
      (IOCore.moved (IOCore.center_of region)
         (IOCore.searched (IOCore.IOImage.path self) w)), (IOCore.log w).
    split; [reflexivity|]. split; [exact Hscr|].
    simpl. rewrite <- app_assoc. reflexivity.
  - set (w1 := IOCore.searched (IOCore.IOImage.path self) w).
    set (w2 := IOCore.slept IOCore.IOImage.poll_interval w1).
    pose proof (IOCore.locate_nonneg Hc (IOCore.now w)) as Hcost.
    pose proof (IOCore.lag_nonneg Hc (IOCore.now w1)) as Hlag.
    assert (Hnow : IOCore.now w2 ==
                   IOCore.now w + IOCore.locate_cost w (IOCore.now w) +
                   (IOCore.IOImage.poll_interval +
                    IOCore.sleep_lag w (IOCore.now w1))) by reflexivity.
    apply (IH self T w2).
    + apply causal_issue. apply causal_issue. exact Hc.
    + exact Hshow.
    + rewrite Nat2Z.inj_succ in Hleft. unfold Z.succ in Hleft.
      rewrite inject_Z_plus in Hleft. change (inject_Z 1) with 1 in Hleft.
      unfold IOCore.IOImage.poll_interval in *. lra.
Qed.

(** With [wait_for] set and no timeout, if from some time on the image
    stays on the screen, [run] ends: some number of rounds is enough, and
    with that many or more it returns [(True, region)] for a region the
    screen showed at the last search, after moving the pointer to its
    centre. *)
Theorem untimed_poll_finds_lasting_image :
  forall (self : IOCore.IOImage.t) (T : Q) (w : IOCore.World),
    IOCore.IOImage.wait_for self = true ->
    IOCore.IOImage.timeout self == -1 ->
    IOCore.causal w ->
    Patterns.shows_from self T w ->
    exists fuel0 : nat,
      forall fuel : nat, (fuel0 <= fuel)%nat ->
        exists (region : IOCore.Box) (issued moved_at : Q) (w' : IOCore.World)
               (before : list (Q * IOCore.Call)),
          IOCore.IOImage.run fuel self w = (Done (true, Some region), w') /\
          IOCore.screen w (IOCore.IOImage.path self) issued = Some region /\
          IOCore.log w' =
            before ++
            [(issued, IOCore.LocateOnScreen (IOCore.IOImage.path self));
             (moved_at, IOCore.MoveTo (IOCore.center_of region))].
Proof.
  intros self T w Hwait Hnone Hc Hshow.
  destruct (intervals_cover_any (T - IOCore.now w)) as [n Hn].
  exists (S n). intros fuel Hfuel.
  replace fuel with (S (n + (fuel - S n))) by lia.
  unfold IOCore.IOImage.run. rewrite Hwait.
  apply Qeq_bool_iff in Hnone. rewrite Hnone.
  apply poll_forever_finds with (T := T); assumption.
Qed.

Lemma untimed_poll_finds_lasting_image_witness :
  exists fuel0 : nat,
    forall fuel : nat, (fuel0 <= fuel)%nat ->
      exists (region : IOCore.Box) (issued moved_at : Q) (w' : IOCore.World)
             (before : list (Q * IOCore.Call)),
        IOCore.IOImage.run fuel Samples.waiting_image MoreSamples.late_world =
          (Done (true, Some region), w') /\
        IOCore.screen MoreSamples.late_world "button.png" issued =
          Some region /\
        IOCore.log w' =
          before ++
          [(issued, IOCore.LocateOnScreen "button.png");
           (moved_at, IOCore.MoveTo (IOCore.center_of region))].
Proof.
  apply (@untimed_poll_finds_lasting_image Samples.waiting_image (1 # 20)
           MoreSamples.late_world).
  - reflexivity.
  - reflexivity.
  - apply ideal_world_causal.
  - intros t Ht. exists Samples.button_box. simpl.
    rewrite (Qle_bool_true Ht). reflexivity.
Defined.

(** The image shows in the sixth round of the untimed loop on
    [late_world]. *)
Example late_world_rounds :
  fst (IOCore.IOImage.run 5 Samples.waiting_image MoreSamples.late_world) =
    OutOfFuel /\
  fst (IOCore.IOImage.run 6 Samples.waiting_image MoreSamples.late_world) =
    Done (true, Some Samples.button_box).
Proof. split; reflexivity. Qed.

(** ** The timed polling loop always ends *)

Lemma poll_until_ends :
  forall (n : nat) (self : IOCore.IOImage.t) (start : Q) (w : IOCore.World),
    IOCore.causal w ->
    IOCore.IOImage.timeout self - (IOCore.now w - start) <=
      inject_Z (Z.of_nat n) * IOCore.IOImage.poll_interval ->
    forall extra : nat,
    exists (r : bool * option IOCore.Box) (w' : IOCore.World),
      IOCore.IOImage.poll_until (S (n + extra)) self start w = (Done r, w').
Proof.
  induction n as [|n IH]; intros self start w Hc Hleft extra;
    pose proof (IOCore.lag_nonneg Hc (IOCore.now w)) as Hlag;
    rewrite poll_until_step; cbv zeta;
    set (w1 := IOCore.slept IOCore.IOImage.poll_interval w);
    assert (Hnow1 : IOCore.now w1 ==
                    IOCore.now w +
                    (IOCore.IOImage.poll_interval +
                     IOCore.sleep_lag w (IOCore.now w)))
      by reflexivity;
    unfold IOCore.IOImage.poll_interval in *.
  - change (inject_Z (Z.of_nat 0)) with 0 in Hleft.
    rewrite Qle_bool_true by lra. eauto.
  - destruct (Qle_bool _ _); [eauto|].
    destruct (IOCore.screen w1 _ _); [eauto|].
    pose proof (IOCore.locate_nonneg Hc (IOCore.now w1)) as Hcost.
    set (w2 := IOCore.searched (IOCore.IOImage.path self) w1).
    assert (Hnow2 : IOCore.now w2 ==
                    IOCore.now w1 + IOCore.locate_cost w (IOCore.now w1))
      by reflexivity.
    apply IH.
    + apply causal_issue. apply causal_issue. exact Hc.
    + rewrite Nat2Z.inj_succ in Hleft. unfold Z.succ in Hleft.
      rewrite inject_Z_plus in Hleft. change (inject_Z 1) with 1 in Hleft.
      lra.
Qed.

(** With [wait_for] set and a timeout, [run] always returns, whatever the
    screen shows and however long searches take: if [n] poll intervals
    cover the timeout, [n + 1] rounds of the loop are enough. *)
Theorem timed_poll_always_returns :
  forall (self : IOCore.IOImage.t) (w : IOCore.World) (n fuel : nat),
    IOCore.IOImage.wait_for self = true ->
    ~ IOCore.IOImage.timeout self == -1 ->
    IOCore.causal w ->
    IOCore.IOImage.timeout self <=
      inject_Z (Z.of_nat n) * IOCore.IOImage.poll_interval ->
    (S n <= fuel)%nat ->
    exists (r : bool * option IOCore.Box) (w' : IOCore.World),
      IOCore.IOImage.run fuel self w = (Done r, w').
Proof.
  intros self w n fuel Hwait Hset Hc Hn Hfuel.
  replace fuel with (S (n + (fuel - S n))) by lia.
  unfold IOCore.IOImage.run. rewrite Hwait, (Qeq_bool_false Hset).
  unfold bind at 1, IOCore.time_time.
  apply poll_until_ends; [exact Hc|]. lra.
Qed.

Lemma timed_poll_always_returns_witness :
  exists (r : bool * option IOCore.Box) (w' : IOCore.World),
    IOCore.IOImage.run 4 (Samples.timed_image (3 # 100))
      Samples.slow_search_world = (Done r, w').
Proof.
  apply (@timed_poll_always_returns (Samples.timed_image (3 # 100))
           Samples.slow_search_world 3 4).
  - reflexivity.
  - discriminate.
  - split; intros t; simpl; discriminate.
  - vm_compute. discriminate.
  - apply le_n.
Defined.

(** With [wait_for] set and a timeout longer than the first sleep takes,
    an image that is on the screen when that sleep ends is found by the
    first search: [run] is one sleep, one search and one pointer move, and
    returns [(True, region)]. *)
Theorem timed_poll_finds_present_image :
  forall (self : IOCore.IOImage.t) (w : IOCore.World) (fuel : nat)
         (region : IOCore.Box),
    IOCore.IOImage.wait_for self = true ->
    ~ IOCore.IOImage.timeout self == -1 ->
    IOCore.IOImage.poll_interval + IOCore.sleep_lag w (IOCore.now w) <
      IOCore.IOImage.timeout self ->
    IOCore.screen w (IOCore.IOImage.path self)
      (IOCore.now (IOCore.slept IOCore.IOImage.poll_interval w)) =
      Some region ->
    IOCore.IOImage.run (S fuel) self w =
      (Done (true, Some region),
       IOCore.moved (IOCore.center_of region)
         (IOCore.searched (IOCore.IOImage.path self)
            (IOCore.slept IOCore.IOImage.poll_interval w))).
Proof.
  intros self w fuel region Hwait Hset Hlong Hscr.
  unfold IOCore.IOImage.run. rewrite Hwait, (Qeq_bool_false Hset).
  unfold bind at 1, IOCore.time_time.
  rewrite poll_until_step. cbv zeta.
  rewrite Qle_bool_false_lt_conv by (simpl; lra).
  change (IOCore.screen (IOCore.slept IOCore.IOImage.poll_interval w))
    with (IOCore.screen w).
  rewrite Hscr. reflexivity.
Qed.

Lemma timed_poll_finds_present_image_witness :
  IOCore.IOImage.run 1 (Samples.timed_image (1 # 50)) Samples.showing_world =
    (Done (true, Some Samples.button_box),
     IOCore.moved (IOCore.center_of Samples.button_box)
       (IOCore.searched "button.png"
          (IOCore.slept IOCore.IOImage.poll_interval Samples.showing_world))).
Proof.
  apply (@timed_poll_finds_present_image (Samples.timed_image (1 # 50))
           Samples.showing_world 0 Samples.button_box).
  - reflexivity.
  - discriminate.
  - reflexivity.
  - reflexivity.
Defined.

(** ** [IOClick.run] with a wait between clicks *)

Lemma click_rounds_run :
  forall (n : nat) (self : IOCore.IOClick.t) (w : IOCore.World),
    0 <= IOCore.IOClick.interval_wait self ->
    IOCore.causal w ->
    exists w' : IOCore.World,
      for_each n
        (bind (IOCore.time_sleep (IOCore.IOClick.interval_wait self))
           (fun _ =>
              IOCore.click (IOCore.IOClick.x self) (IOCore.IOClick.y self)
                (IOCore.IOClick.button self) 1)) w = (Done tt, w') /\
      map snd (IOCore.log w') =
        map snd (IOCore.log w) ++ Patterns.click_rounds n self /\
      IOCore.now w +
        inject_Z (Z.of_nat n) * IOCore.IOClick.interval_wait self <=
        IOCore.now w' /\
      IOCore.causal w'.
Proof.
  induction n as [|n IH]; intros self w Hpos Hc.
  - exists w. split; [reflexivity|]. split; [simpl; rewrite app_nil_r; reflexivity|].
    split; [|exact Hc]. change (inject_Z (Z.of_nat 0)) with 0. lra.
  - destruct (click_round self Hpos Hc) as (w1 & t1 & E1 & L1 & A1 & B1 & C1).
    destruct (IH self w1 Hpos C1) as (w' & E' & L' & A' & C').
    exists w'. split.
    { cbn [for_each]. unfold bind at 1. rewrite E1. exact E'. }
    split.
    { rewrite L', L1, map_app, <- app_assoc. reflexivity. }
    split; [|exact C'].
    rewrite Nat2Z.inj_succ. unfold Z.succ. rewrite inject_Z_plus.
    change (inject_Z 1) with 1. lra.
Qed.

(** With a positive [interval_wait], [IOClick.run] makes as many rounds as
    [range(clicks)] has elements, none for a negative count: each round is
    a sleep of the interval and then one single click, so the whole run
    takes at least the count times the interval. *)
Theorem click_run_rounds :
  forall (self : IOCore.IOClick.t) (w : IOCore.World),
    0 < IOCore.IOClick.interval_wait self ->
    IOCore.causal w ->
    exists w' : IOCore.World,
      IOCore.IOClick.run self w = (Done tt, w') /\
      map snd (IOCore.log w') =
        map snd (IOCore.log w) ++
        Patterns.click_rounds (Z.to_nat (IOCore.IOClick.clicks self)) self /\
      IOCore.now w +
        inject_Z (Z.of_nat (Z.to_nat (IOCore.IOClick.clicks self))) *
        IOCore.IOClick.interval_wait self <= IOCore.now w'.
Proof.
  intros self w Hpos Hc. unfold IOCore.IOClick.run.
  rewrite Qeq_bool_false by (intros E; rewrite E in Hpos; discriminate).
  unfold range_len.
  destruct (@click_rounds_run (Z.to_nat (IOCore.IOClick.clicks self)) self w)
    as (w' & E & L & A & _); [lra | exact Hc |].
  exists w'. auto.
Qed.

Lemma click_run_rounds_witness :
  exists w' : IOCore.World,
    IOCore.IOClick.run Samples.triple_click Samples.blank_world =
      (Done tt, w') /\
    map snd (IOCore.log w') =
      map snd (IOCore.log Samples.blank_world) ++
      Patterns.click_rounds 3 Samples.triple_click /\
    IOCore.now Samples.blank_world +
      inject_Z (Z.of_nat 3) * (1 # 2) <= IOCore.now w'.
Proof.
  apply (@click_run_rounds Samples.triple_click Samples.blank_world).
  - reflexivity.
  - apply ideal_world_causal.
Defined.

(** With a negative [interval_wait] and a count of at least one,
    [IOClick.run] raises the [ValueError] of [time.sleep] in its first
    round: no call reaches the outside, nothing is clicked. *)
Theorem click_run_negative_wait_raises :
  forall (self : IOCore.IOClick.t) (w : IOCore.World),
    IOCore.IOClick.interval_wait self < 0 ->
    (1 <= IOCore.IOClick.clicks self)%Z ->
    IOCore.IOClick.run self w =
      (Raise (ValueError "sleep length must be non-negative"), w).
Proof.
  intros self w Hneg Hcount. unfold IOCore.IOClick.run.
  rewrite Qeq_bool_false by (intros E; rewrite E in Hneg; discriminate).
  unfold range_len.
  destruct (Z.to_nat (IOCore.IOClick.clicks self)) as [|k] eqn:Ek; [lia|].
  cbn [for_each]. unfold bind at 1 2, IOCore.time_sleep.
  rewrite Qle_bool_false_lt_conv by exact Hneg. reflexivity.
Qed.

Lemma click_run_negative_wait_raises_witness :
  IOCore.IOClick.run MoreSamples.hasty_click Samples.blank_world =
    (Raise (ValueError "sleep length must be non-negative"),
     Samples.blank_world).
Proof.
  apply (@click_run_negative_wait_raises MoreSamples.hasty_click
           Samples.blank_world).
  - reflexivity.
  - reflexivity.
Defined.

(** With [interval_wait] zero, [IOClick.run] is one [pg.click] call that
    carries the count, whatever the count is, and no sleep. *)
Theorem click_run_without_wait :
  forall (self : IOCore.IOClick.t) (w : IOCore.World),
    IOCore.IOClick.interval_wait self == 0 ->
    exists w' : IOCore.World,
      IOCore.IOClick.run self w = (Done tt, w') /\
      IOCore.log w' =
        IOCore.log w ++
        [(IOCore.now w,
          IOCore.Click (IOCore.IOClick.x self) (IOCore.IOClick.y self)
            (IOCore.IOClick.button self) (IOCore.IOClick.clicks self))].
Proof.
  intros self w Hzero. unfold IOCore.IOClick.run.
  apply Qeq_bool_iff in Hzero. rewrite Hzero.
  eexists. split; reflexivity.
Qed.

Lemma click_run_without_wait_witness :
  exists w' : IOCore.World,
    IOCore.IOClick.run IOCore.IOClick.init Samples.blank_world = (Done tt, w') /\
    IOCore.log w' =
      IOCore.log Samples.blank_world ++
      [(IOCore.now Samples.blank_world, IOCore.Click None None "primary" 1)].
Proof.
  apply (@click_run_without_wait IOCore.IOClick.init Samples.blank_world).
  reflexivity.
Defined.

(** ** The order of the checks of [IOPixel.set_rgb] *)

(** [set_rgb] checks red, then green, then blue: the assertion that fails
    is that of the first channel outside 0..255, whatever the later
    channels are. *)
Theorem set_rgb_reports_first_bad_channel :
  forall (self : IOCore.IOPixel.t) (r g b : Z),
    (~ (0 <= r <= 255)%Z ->
     IOCore.IOPixel.set_rgb r g b self =
       (Raise (AssertionError "Invalid red value"), self)) /\
    ((0 <= r <= 255)%Z -> ~ (0 <= g <= 255)%Z ->
     IOCore.IOPixel.set_rgb r g b self =
       (Raise (AssertionError "Invalid green value"), self)) /\
    ((0 <= r <= 255)%Z -> (0 <= g <= 255)%Z -> ~ (0 <= b <= 255)%Z ->
     IOCore.IOPixel.set_rgb r g b self =
       (Raise (AssertionError "Invalid blue value"), self)).
Proof.
  intros self r g b.
  unfold IOCore.IOPixel.set_rgb, bind, assert_, ret, raise,
    IOCore.IOPixel.channel_ok.
  repeat split.
  - intros Hr. replace ((0 <=? r) && (r <=? 255))%Z with false by lia.
    reflexivity.
  - intros Hr Hg. replace ((0 <=? r) && (r <=? 255))%Z with true by lia.
    replace ((0 <=? g) && (g <=? 255))%Z with false by lia. reflexivity.
  - intros Hr Hg Hb. replace ((0 <=? r) && (r <=? 255))%Z with true by lia.
    replace ((0 <=? g) && (g <=? 255))%Z with true by lia.
    replace ((0 <=? b) && (b <=? 255))%Z with false by lia. reflexivity.
Qed.

Lemma set_rgb_reports_first_bad_channel_witness :
  IOCore.IOPixel.set_rgb 300 (-1) 999 (IOCore.IOPixel.init None None) =
    (Raise (AssertionError "Invalid red value"),
     IOCore.IOPixel.init None None) /\
  IOCore.IOPixel.set_rgb 30 (-1) 999 (IOCore.IOPixel.init None None) =
    (Raise (AssertionError "Invalid green value"),
     IOCore.IOPixel.init None None) /\
  IOCore.IOPixel.set_rgb 30 10 999 (IOCore.IOPixel.init None None) =
    (Raise (AssertionError "Invalid blue value"),
     IOCore.IOPixel.init None None).
Proof.
  split; [|split].
  - apply (proj1 (set_rgb_reports_first_bad_channel
                    (IOCore.IOPixel.init None None) 300 (-1) 999)). lia.
  - apply (proj1 (proj2 (set_rgb_reports_first_bad_channel
                           (IOCore.IOPixel.init None None) 30 (-1) 999)));
      lia.
  - apply (proj2 (proj2 (set_rgb_reports_first_bad_channel
                           (IOCore.IOPixel.init None None) 30 10 999)));
      lia.
Defined.

(** * Further properties of [web/core.py] *)

Local Open Scope nat_scope.

(** ** Element lookup *)

(** [Web.find] builds a locator and touches nothing: whatever it returns
    or raises, the object and the outside are as before, no call is made. *)
Theorem find_changes_nothing :
  forall (selector by_ : string) (s : WebCore.St),
    snd (WebCore.find selector by_ s) = s.
Proof.
  intros selector by_ s. unfold WebCore.find.
  repeat (destruct (String.eqb by_ _);
          [unfold bind, WebCore.getattr; destruct (WebCore.page (fst s));
           reflexivity|]).
  reflexivity.
Qed.

(** The strategies "id" and "class" are shorthand for "css": looking up
    [selector] by id is looking up ["#" ++ selector] by css, and by class
    is looking up ["." ++ selector] by css; "css" itself passes the
    selector on as it is. *)
Theorem find_id_class_are_css_shorthand :
  forall (selector : string) (s : WebCore.St),
    WebCore.find selector "id" s = WebCore.find ("#" ++ selector) "css" s /\
    WebCore.find selector "class" s = WebCore.find ("." ++ selector) "css" s /\
    forall pg : WebCore.Handle,
      WebCore.page (fst s) = Some pg ->
      WebCore.find selector "css" s = (Done (WebCore.mkLocator pg selector), s).
Proof.
  intros selector s. split; [reflexivity|]. split; [reflexivity|].
  intros pg Hpg. unfold WebCore.find. simpl.
  unfold bind, WebCore.getattr. rewrite Hpg. reflexivity.
Qed.

Lemma find_id_class_are_css_shorthand_witness :
  WebCore.find "main" "css" (Samples.live_web 3, Samples.open_web) =
    (Done (WebCore.mkLocator 3 "main"), (Samples.live_web 3, Samples.open_web)).
Proof.
  apply (proj2 (proj2 (find_id_class_are_css_shorthand "main"
                         (Samples.live_web 3, Samples.open_web)))).
  reflexivity.
Defined.

(** A supported strategy on a bound page gives a locator on that page. *)
Lemma find_on_page :
  forall (selector by_ : string) (s : WebCore.St) (pg : WebCore.Handle),
    In by_ WebCore.By ->
    WebCore.page (fst s) = Some pg ->
    exists target : string,
      WebCore.find selector by_ s = (Done (WebCore.mkLocator pg target), s).
Proof.
  intros selector by_ s pg Hin Hpg. unfold WebCore.By in Hin. simpl in Hin.
  unfold WebCore.find, bind, WebCore.getattr, ret.
  destruct Hin as [E|[E|[E|[E|[E|[]]]]]]; subst by_; simpl; rewrite Hpg;
    eexists; reflexivity.
Qed.

(** An unsupported strategy raises, and changes nothing. *)
Lemma find_unsupported :
  forall (selector by_ : string) (s : WebCore.St),
    ~ In by_ WebCore.By ->
    WebCore.find selector by_ s =
      (Raise (ValueError ("`" ++ by_ ++ "` is unsupported")), s).
Proof.
  intros selector by_ s Hout. unfold WebCore.find, WebCore.By in *.
  repeat match goal with
         | |- context [String.eqb by_ ?k] =>
             destruct (String.eqb_spec by_ k) as [E|_];
             [exfalso; apply Hout; subst by_; simpl; tauto|]
         end.
  reflexivity.
Qed.

(** ** Starting and closing a session by hand *)

(** [close] after [start] releases exactly what [start] acquired, in the
    reverse order, also when the navigation of [start] failed and [start]
    raised: the four session attributes are bound before the navigation. *)
Theorem start_then_close_balanced :
  forall (self : WebCore.Web) (w0 : WebCore.World),
    let h := WebCore.next_handle w0 in
    exists (o : Outcome unit) (s1 s2 : WebCore.St),
      WebCore.start (self, w0) = (o, s1) /\
      o = match WebCore.navigate w0 (WebCore.url self) with
          | inr _ => Done tt
          | inl e => Raise e
          end /\
      WebCore.close s1 = (Done tt, s2) /\
      WebCore.calls (snd s2) =
        WebCore.calls w0 ++
        WebCore.startup h (WebCore.headless self) (WebCore.url self) ++
        WebCore.teardown h (S h) (S (S h)) (S (S (S h))).
Proof.
  intros self w0 h.
  unfold WebCore.start, WebCore.close, WebCore.goto, bind, WebCore.acquire,
    WebCore.setattr, WebCore.getattr, WebCore.get, WebCore.emit. simpl.
  destruct (WebCore.navigate w0 (WebCore.url self)) as [e|resp]; simpl;
    do 3 eexists; (split; [reflexivity|]); (split; [reflexivity|]);
    (split; [reflexivity|]); simpl; rewrite <- !app_assoc; reflexivity.
Qed.

(** [close] on an object that was never started raises [AttributeError]
    for [page], the first attribute it reads, and makes no call. *)
Theorem close_before_start_raises :
  forall (u : string) (w : WebCore.World),
    WebCore.close (WebCore.init u, w) =
      (Raise (AttributeError "page"), (WebCore.init u, w)) /\
    WebCore.close (WebCore.enable_headless (WebCore.init u), w) =
      (Raise (AttributeError "page"),
       (WebCore.enable_headless (WebCore.init u), w)).
Proof. intros u w. split; reflexivity. Qed.

(** [redirect] stores the new URL before it navigates: whatever
    [redirect] ends in, [self.url] is the new URL and the session
    attributes are as before; [self.response] is replaced only when the
    navigation succeeds; and before [start] it raises [AttributeError]
    for [page], with the URL already changed and no call made. *)
Theorem redirect_sets_url_first :
  forall (u : string) (s : WebCore.St),
    let r := WebCore.redirect u s in
    WebCore.url (fst (snd r)) = u /\
    WebCore.playwright (fst (snd r)) = WebCore.playwright (fst s) /\
    WebCore.browser (fst (snd r)) = WebCore.browser (fst s) /\
    WebCore.context (fst (snd r)) = WebCore.context (fst s) /\
    WebCore.page (fst (snd r)) = WebCore.page (fst s) /\
    match WebCore.page (fst s) with
    | None =>
        fst r = Raise (AttributeError "page") /\
        WebCore.calls (snd (snd r)) = WebCore.calls (snd s) /\
        WebCore.response (fst (snd r)) = WebCore.response (fst s)
    | Some pg =>
        WebCore.calls (snd (snd r)) =
          WebCore.calls (snd s) ++ [WebCore.Goto pg u] /\
        match WebCore.navigate (snd s) u with
        | inr resp =>
            fst r = Done tt /\ WebCore.response (fst (snd r)) = Some resp
        | inl e =>
            fst r = Raise e /\
            WebCore.response (fst (snd r)) = WebCore.response (fst s)
        end
    end.
Proof.
  intros u [self w]. 
  unfold WebCore.redirect, WebCore.goto, bind, WebCore.setattr,
    WebCore.getattr, WebCore.get, WebCore.emit. simpl.
  destruct (WebCore.page self) as [pg|] eqn:Hpg; simpl.
  - destruct (WebCore.navigate w u) as [e|resp]; simpl; repeat split;
      exact Hpg.
  - repeat split; exact Hpg.
Qed.

(** A second [start] without a [close] between binds four new session
    objects over the old ones: [close] then releases the second session
    only, and no later call can reach the first four objects through the
    [Web] object. *)
Theorem restart_leaks_first_session :
  forall (self : WebCore.Web) (w0 : WebCore.World)
         (resp : option WebCore.Response),
    WebCore.navigate w0 (WebCore.url self) = inr resp ->
    let h := WebCore.next_handle w0 in
    let h' := S (S (S (S h))) in
    exists s3 : WebCore.St,
      bind WebCore.start
        (fun _ => bind WebCore.start (fun _ => WebCore.close)) (self, w0) =
        (Done tt, s3) /\
      WebCore.calls (snd s3) =
        WebCore.calls w0 ++
        WebCore.startup h (WebCore.headless self) (WebCore.url self) ++
        WebCore.startup h' (WebCore.headless self) (WebCore.url self) ++
        WebCore.teardown h' (S h') (S (S h')) (S (S (S h'))) /\
      forall c : WebCore.Call,
        In c (WebCore.teardown h (S h) (S (S h)) (S (S (S h)))) ->
        ~ In c (WebCore.startup h (WebCore.headless self) (WebCore.url self) ++
                WebCore.startup h' (WebCore.headless self) (WebCore.url self) ++
                WebCore.teardown h' (S h') (S (S h')) (S (S (S h')))).
Proof.
  intros self w0 resp Hnav h h'.
  unfold WebCore.start, WebCore.close, WebCore.goto, bind, WebCore.acquire,
    WebCore.setattr, WebCore.getattr, WebCore.get, WebCore.emit. simpl.
  rewrite Hnav. simpl. rewrite Hnav. simpl.
  eexists. split; [reflexivity|]. split.
  - simpl. rewrite <- !app_assoc. reflexivity.
  - intros c Hc Hin. simpl in Hc, Hin. subst h'.
    repeat match goal with
           | H : _ \/ _ |- _ => destruct H
           | H : False |- _ => contradiction
           end; subst c; try discriminate;
      match goal with
      | H : _ = _ |- _ => injection H; intros; lia
      end.
Qed.

Lemma restart_leaks_first_session_witness :
  exists s3 : WebCore.St,
    bind WebCore.start
      (fun _ => bind WebCore.start (fun _ => WebCore.close))
      (WebCore.init "https://example.org", Samples.open_web) = (Done tt, s3) /\
    WebCore.calls (snd s3) =
      WebCore.calls Samples.open_web ++
      WebCore.startup 0 false "https://example.org" ++
      WebCore.startup 4 false "https://example.org" ++
      WebCore.teardown 4 5 6 7 /\
    forall c : WebCore.Call,
      In c (WebCore.teardown 0 1 2 3) ->
      ~ In c (WebCore.startup 0 false "https://example.org" ++
              WebCore.startup 4 false "https://example.org" ++
              WebCore.teardown 4 5 6 7).
Proof.
  apply (@restart_leaks_first_session (WebCore.init "https://example.org")
           Samples.open_web None).
  reflexivity.
Defined.

(** ** The scoped session when entry fails *)

(** When the navigation of [start] fails inside a [with] statement, the
    exception comes out of the statement, the body does not run and
    [__exit__] is not called: the four session objects were acquired and
    bound, and none is released. *)
Theorem failed_entry_releases_nothing :
  forall (A : Type) (body : M WebCore.St A) (self : WebCore.Web)
         (w0 : WebCore.World) (e : Exn),
    WebCore.navigate w0 (WebCore.url self) = inl e ->
    let h := WebCore.next_handle w0 in
    exists s1 : WebCore.St,
      WebCore.with_web body (self, w0) = (Raise e, s1) /\
      WebCore.calls (snd s1) =
        WebCore.calls w0 ++
        WebCore.startup h (WebCore.headless self) (WebCore.url self) /\
      WebCore.pick WebCore.acquired
        (WebCore.startup h (WebCore.headless self) (WebCore.url self)) =
        [WebCore.Engine; WebCore.Browser; WebCore.Context; WebCore.Page] /\
      WebCore.pick WebCore.released
        (WebCore.startup h (WebCore.headless self) (WebCore.url self)) = [] /\
      WebCore.page (fst s1) = Some (S (S (S h))) /\
      WebCore.response (fst s1) = WebCore.response self.
Proof.
  intros A body self w0 e Hnav h.
  unfold WebCore.with_web, WebCore.with_, WebCore.enter_, WebCore.start,
    WebCore.goto, bind, WebCore.acquire, WebCore.setattr, WebCore.getattr,
    WebCore.get, WebCore.emit. simpl.
  rewrite Hnav. eexists. split; [reflexivity|]. simpl.
  rewrite <- !app_assoc. repeat split.
Qed.

Lemma failed_entry_releases_nothing_witness :
  exists s1 : WebCore.St,
    WebCore.with_web Samples.failing_body
      (WebCore.init "https://example.org", Samples.closed_web) =
      (Raise (PlaywrightError "net::ERR_NAME_NOT_RESOLVED"), s1) /\
    WebCore.calls (snd s1) =
      WebCore.calls Samples.closed_web ++
      WebCore.startup 0 false "https://example.org" /\
    WebCore.pick WebCore.acquired
      (WebCore.startup 0 false "https://example.org") =
      [WebCore.Engine; WebCore.Browser; WebCore.Context; WebCore.Page] /\
    WebCore.pick WebCore.released
      (WebCore.startup 0 false "https://example.org") = [] /\
    WebCore.page (fst s1) = Some 3 /\
    WebCore.response (fst s1) = None.
Proof.
  apply (@failed_entry_releases_nothing unit Samples.failing_body
           (WebCore.init "https://example.org") Samples.closed_web
           (PlaywrightError "net::ERR_NAME_NOT_RESOLVED")).
  reflexivity.
Defined.

(** ** Clicking an element *)

Lemma lift_find_unsupported :
  forall (selector by_ : string) (s : WebActions.St),
    ~ In by_ WebCore.By ->
    WebActions.lift (WebCore.find selector by_) s =
      (Raise (ValueError ("`" ++ by_ ++ "` is unsupported")), s).
Proof.
  intros selector by_ [ws d] Hout. unfold WebActions.lift. simpl.
  rewrite find_unsupported by exact Hout. reflexivity.
Qed.

Lemma lift_find_on_page :
  forall (selector by_ : string) (s : WebActions.St) (pg : WebCore.Handle),
    In by_ WebCore.By ->
    WebCore.page (fst (fst s)) = Some pg ->
    exists target : string,
      WebActions.lift (WebCore.find selector by_) s =
        (Done (WebCore.mkLocator pg target), s).
Proof.
  intros selector by_ [ws d] pg Hin Hpg. unfold WebActions.lift. simpl.
  destruct (@find_on_page selector by_ ws pg Hin Hpg) as [target Hf].
  exists target. rewrite Hf. reflexivity.
Qed.

(** [Web.click] looks the element up once per click, inside its loop: with
    an amount of zero or less it returns at once and changes nothing, even
    for an unsupported strategy or before [start]; with an amount of at
    least one and an unsupported strategy it raises the [ValueError] of
    [find] before any click. *)
Theorem click_checks_strategy_per_click :
  forall (selector by_ : string) (amount : Z) (s : WebActions.St),
    ((amount <= 0)%Z ->
     WebActions.click selector by_ amount s = (Done tt, s)) /\
    ((1 <= amount)%Z -> ~ In by_ WebCore.By ->
     WebActions.click selector by_ amount s =
       (Raise (ValueError ("`" ++ by_ ++ "` is unsupported")), s)).
Proof.
  intros selector by_ amount s. unfold WebActions.click, range_len. split.
  - intros Hle. destruct amount; try lia; reflexivity.
  - intros Hge Hout.
    destruct (Z.to_nat amount) as [|k] eqn:Ek; [lia|].
    cbn [for_each]. unfold bind at 1 2.
    rewrite lift_find_unsupported by exact Hout. reflexivity.
Qed.

Lemma clicks_in_a_row :
  forall (n : nat) (selector by_ : string) (ws : WebCore.St)
         (d : WebActions.Dom) (loc : WebCore.Locator),
    WebCore.find selector by_ ws = (Done loc, ws) ->
    (forall k l, WebActions.clicked d k l = inr tt) ->
    exists d' : WebActions.Dom,
      for_each n
        (bind (WebActions.lift (WebCore.find selector by_))
           (fun l => WebActions.click_on l)) (ws, d) = (Done tt, (ws, d')) /\
      WebActions.actions d' =
        WebActions.actions d ++ repeat (WebActions.ClickOn loc) n.
Proof.
  induction n as [|n IH]; intros selector by_ ws d loc Hfind Hok.
  - exists d. split; [reflexivity|]. simpl. rewrite app_nil_r. reflexivity.
  - destruct (IH selector by_ ws
                (WebActions.record (WebActions.ClickOn loc) d) loc Hfind Hok)
      as (d' & Hrun & Hacts).
    exists d'. split.
    + cbn [for_each]. unfold bind at 1 2, WebActions.lift at 1.
      cbn [fst snd]. rewrite Hfind.
      unfold WebActions.click_on at 1, WebActions.call. cbn [fst snd].
      rewrite Hok. exact Hrun.
    + rewrite Hacts. cbn [WebActions.record WebActions.actions repeat].
      rewrite <- app_assoc. reflexivity.
Qed.

(** On a running session, with a supported strategy and clicks that
    succeed, [Web.click] clicks as many times as [range(amount)] has
    elements, each time on the same locator, and makes no other call on
    the page. *)
Theorem click_clicks_amount_times :
  forall (selector by_ : string) (amount : Z) (ws : WebCore.St)
         (d : WebActions.Dom) (pg : WebCore.Handle),
    In by_ WebCore.By ->
    WebCore.page (fst ws) = Some pg ->
    (forall k l, WebActions.clicked d k l = inr tt) ->
    exists (target : string) (d' : WebActions.Dom),
      WebActions.click selector by_ amount (ws, d) = (Done tt, (ws, d')) /\
      WebActions.actions d' =
        WebActions.actions d ++
        repeat (WebActions.ClickOn (WebCore.mkLocator pg target))
          (Z.to_nat amount).
Proof.
  intros selector by_ amount ws d pg Hin Hpg Hok.
  destruct (@find_on_page selector by_ ws pg Hin Hpg) as [target Hfind].
  destruct (@clicks_in_a_row (Z.to_nat amount) selector by_ ws d _ Hfind Hok)
    as (d' & Hrun & Hacts).
  exists target, d'. split; [exact Hrun | exact Hacts].
Qed.

Lemma click_clicks_amount_times_witness :
  exists (target : string) (d' : WebActions.Dom),
    WebActions.click "ok" "id" 2 (MoreSamples.live MoreSamples.still_dom) =
      (Done tt, ((Samples.live_web 3, Samples.open_web), d')) /\
    WebActions.actions d' =
      WebActions.actions MoreSamples.still_dom ++
      repeat (WebActions.ClickOn (WebCore.mkLocator 3 target)) (Z.to_nat 2).
Proof.
  apply (@click_clicks_amount_times "ok" "id" 2
           (Samples.live_web 3, Samples.open_web) MoreSamples.still_dom 3).
  - simpl. tauto.
  - reflexivity.
  - intros k l. reflexivity.
Defined.

Lemma click_checks_strategy_per_click_witness :
  WebActions.click "ok" "name" 0 (MoreSamples.live MoreSamples.still_dom) =
    (Done tt, MoreSamples.live MoreSamples.still_dom) /\
  WebActions.click "ok" "name" 1 (MoreSamples.live MoreSamples.still_dom) =
    (Raise (ValueError "`name` is unsupported"),
     MoreSamples.live MoreSamples.still_dom).
Proof.
  split.
  - apply (proj1 (click_checks_strategy_per_click "ok" "name" 0
                    (MoreSamples.live MoreSamples.still_dom))). lia.
  - apply (proj2 (click_checks_strategy_per_click "ok" "name" 1
                    (MoreSamples.live MoreSamples.still_dom))).
    + lia.
    + simpl. intros [H|[H|[H|[H|[H|[]]]]]]; discriminate.
Defined.

(** ** Waiting for an element and asking whether it exists *)

(** [Web.wait_for] turns the end of the wait into a boolean only for a
    reached state ([True]) and for a timeout ([False]); every other
    exception of the wait comes out, and so does the [ValueError] of
    [find] for an unsupported strategy, which is raised inside the [try]
    and is not what the handler catches.  One wait is made, with the
    state and the timeout given. *)
Theorem wait_for_outcomes :
  forall (selector by_ state : string) (timeout_ms : Z) (s : WebActions.St),
    (~ In by_ WebCore.By ->
     WebActions.wait_for selector by_ timeout_ms state s =
       (Raise (ValueError ("`" ++ by_ ++ "` is unsupported")), s)) /\
    (In by_ WebCore.By ->
     forall pg : WebCore.Handle,
       WebCore.page (fst (fst s)) = Some pg ->
       exists target : string,
         let loc := WebCore.mkLocator pg target in
         WebActions.wait_for selector by_ timeout_ms state s =
           (match WebActions.waited (snd s)
                    (List.length (WebActions.actions (snd s)))
                    loc state timeout_ms with
            | WebActions.Reached => Done true
            | WebActions.TimedOut => Done false
            | WebActions.Failed e => Raise e
            end,
            (fst s,
             WebActions.record (WebActions.WaitFor loc state timeout_ms)
               (snd s)))).
Proof.
  intros selector by_ state timeout_ms s. unfold WebActions.wait_for. split.
  - intros Hout. unfold bind at 1.
    rewrite lift_find_unsupported by exact Hout. reflexivity.
  - intros Hin pg Hpg.
    destruct (@lift_find_on_page selector by_ s pg Hin Hpg) as [target Hf].
    exists target. cbv zeta. unfold bind at 1. rewrite Hf.
    unfold bind, WebActions.wait_on.
    destruct (WebActions.waited _ _ _ _ _); reflexivity.
Qed.

Lemma wait_for_outcomes_witness :
  WebActions.wait_for "ok" "name" 5000 "visible"
    (MoreSamples.live MoreSamples.bare_dom) =
    (Raise (ValueError "`name` is unsupported"),
     MoreSamples.live MoreSamples.bare_dom) /\
  exists target : string,
    WebActions.wait_for "ok" "id" 5000 "visible"
      (MoreSamples.live MoreSamples.bare_dom) =
      (Done false,
       ((Samples.live_web 3, Samples.open_web),
        WebActions.record
          (WebActions.WaitFor (WebCore.mkLocator 3 target) "visible" 5000)
          MoreSamples.bare_dom)).
Proof.
  split.
  - apply (proj1 (wait_for_outcomes "ok" "name" "visible" 5000
                    (MoreSamples.live MoreSamples.bare_dom))).
    simpl. intros [H|[H|[H|[H|[H|[]]]]]]; discriminate.
  - apply (proj2 (wait_for_outcomes "ok" "id" "visible" 5000
                    (MoreSamples.live MoreSamples.bare_dom))).
    + simpl. tauto.
    + reflexivity.
Defined.



(** ** Response headers *)

(** [Web.headers] after a [start] whose navigation succeeded gives the
    headers of the response, or the empty dictionary when the navigation
    returned no response.  When the response attribute was never bound,
    before [start] or after a [start] whose navigation failed, it raises
    [AttributeError]: the test of [self.response] reads the attribute
    first. *)
Theorem headers_need_a_bound_response :
  forall (self : WebCore.Web) (w0 : WebCore.World),
    WebCore.response self = None ->
    WebActions.headers (self, w0) =
      (Raise (AttributeError "response"), (self, w0)) /\
    match WebCore.navigate w0 (WebCore.url self) with
    | inr resp =>
        fst (bind WebCore.start (fun _ => WebActions.headers) (self, w0)) =
          Done match resp with
               | Some r => WebCore.headers_of r
               | None => []
               end
    | inl e =>
        fst (bind WebCore.start (fun _ => WebActions.headers) (self, w0)) =
          Raise e /\
        fst (WebActions.headers (snd (WebCore.start (self, w0)))) =
          Raise (AttributeError "response")
    end.
Proof.
  intros self w0 Hresp. split.
  - unfold WebActions.headers, bind, WebCore.getattr. cbn [fst].
    rewrite Hresp. reflexivity.
  - unfold WebActions.headers, WebCore.start, WebCore.goto, bind,
      WebCore.acquire, WebCore.setattr, WebCore.getattr, WebCore.get,
      WebCore.emit. simpl.
    destruct (WebCore.navigate w0 (WebCore.url self)) as [e|[r|]]; simpl;
      try rewrite Hresp; auto.
Qed.

Lemma headers_need_a_bound_response_witness :
  WebActions.headers (WebCore.init "https://example.org", Samples.open_web) =
    (Raise (AttributeError "response"),
     (WebCore.init "https://example.org", Samples.open_web)) /\
  fst (bind WebCore.start (fun _ => WebActions.headers)
         (WebCore.init "https://example.org", Samples.open_web)) = Done [].
Proof.
  apply (@headers_need_a_bound_response (WebCore.init "https://example.org")
           Samples.open_web eq_refl).
Defined.

(** * Properties of [IOPixel.manually_pick] *)

Lemma pick_loop_step :
  forall (fuel : nat) (self : IOCore.IOPixel.t) (d : Picker.Desk),
    Picker.pick_loop (S fuel) (self, d) =
      let p := Picker.pointer_at d (List.length (Picker.made d)) in
      let d1 := Picker.note Picker.Position d in
      let rgb :=
        Picker.pixel_at d (List.length (Picker.made d1)) (fst p) (snd p) in
      let d2 := Picker.note (Picker.Pixel (fst p) (snd p)) d1 in
      let d3 :=
        Picker.note
          (Picker.Print (Picker.status_line (fst p) (snd p) rgb ++ "")) d2 in
      let d4 := Picker.note (Picker.IsPressed ".") d3 in
      if Picker.pressed_at d (List.length (Picker.made d3)) "."
      then
        (Done tt,
         (IOCore.IOPixel.mk (Some (fst p)) (Some (snd p)) (Some rgb),
          Picker.note (Picker.UnblockKey ".")
            (Picker.note (Picker.Print (Picker.LF ++ Picker.LF)) d4)))
      else Picker.pick_loop fuel (self, d4).
Proof.
  intros fuel self d. cbn [Picker.pick_loop].
  unfold bind, Picker.position, Picker.pixel, Picker.print, Picker.is_pressed,
    Picker.store, Picker.unblock_key.
  cbn [fst snd Picker.note Picker.made Picker.pointer_at Picker.pixel_at
       Picker.pressed_at].
  destruct (Picker.pressed_at d _ "."); reflexivity.
Qed.

Lemma status_line_end :
  forall x y rgb,
    (Picker.status_line x y rgb ++ "")%string = Picker.status_line x y rgb.
Proof.
  intros x y rgb. generalize (Picker.status_line x y rgb) as s.
  induction s as [|c s IH]; simpl; [reflexivity|]. rewrite IH. reflexivity.
Qed.

Lemma pick_loop_returns :
  forall (fuel : nat) (self self' : IOCore.IOPixel.t) (d d' : Picker.Desk),
    Picker.pick_loop fuel (self, d) = (Done tt, (self', d')) ->
    exists (earlier : list Picker.Call) (x y : Z) (rgb : Z * Z * Z),
      let k := (List.length (Picker.made d) + List.length earlier)%nat in
      Picker.made d' =
        Picker.made d ++ earlier ++ Picker.round_calls x y rgb ++
        [Picker.Print (Picker.LF ++ Picker.LF); Picker.UnblockKey "."] /\
      filter Picker.is_unblock earlier = [] /\
      Picker.pointer_at d k = (x, y) /\
      Picker.pixel_at d (S k) x y = rgb /\
      Picker.pressed_at d (S (S (S k))) "." = true /\
      self' = IOCore.IOPixel.mk (Some x) (Some y) (Some rgb).
Proof.
  induction fuel as [|fuel IH]; intros self self' d d'; [discriminate|].
  rewrite pick_loop_step. cbv zeta. rewrite status_line_end.
  cbn [Picker.note Picker.made]. rewrite !length_app. cbn [List.length].
  destruct (Picker.pointer_at d (List.length (Picker.made d)))
    as [x y] eqn:Hp. cbn [fst snd].
  destruct (Picker.pressed_at d _ ".") eqn:Hkey.
  - intros H. injection H as Hself Hd. subst self' d'.
    exists [], x, y,
      (Picker.pixel_at d (List.length (Picker.made d) + 1) x y).
    cbn [List.length]. rewrite Nat.add_0_r.
    cbn [Picker.note Picker.made]. split.
    { unfold Picker.round_calls. rewrite <- !app_assoc. reflexivity. }
    split; [reflexivity|]. split; [exact Hp|].
    replace (S (List.length (Picker.made d)))
      with (List.length (Picker.made d) + 1)%nat by lia.
    split; [reflexivity|]. split; [|reflexivity].
    replace (S (S (List.length (Picker.made d) + 1)))
      with (List.length (Picker.made d) + 1 + 1 + 1)%nat by lia.
    exact Hkey.
  - intros H. apply IH in H.
    destruct H as (earlier & x' & y' & rgb' & Hmade & Hnone & Hp' & Hc' & Hk'
                   & Hself).
    cbn [Picker.note Picker.made Picker.pointer_at Picker.pixel_at
         Picker.pressed_at] in Hmade, Hp', Hc', Hk'.
    rewrite !length_app in Hp', Hc', Hk'. cbn [List.length] in Hp', Hc', Hk'.
    exists (Picker.round_calls x y
              (Picker.pixel_at d (List.length (Picker.made d) + 1) x y)
            ++ earlier), x', y', rgb'.
    rewrite length_app. unfold Picker.round_calls at 2. cbn [List.length].
    split.
    { rewrite Hmade. unfold Picker.round_calls at 2.
      rewrite <- !app_assoc. reflexivity. }
    split.
    { rewrite filter_app, Hnone. reflexivity. }
    match type of Hp' with
    | Picker.pointer_at d ?b = _ =>
        match goal with
        | |- _ /\ _ /\ Picker.pressed_at d (S (S (S ?a))) _ = _ /\ _ =>
            replace a with b by (unfold Picker.round_calls; simpl; lia)
        end
    end.
    auto.
Qed.

(** When [manually_pick] returns, what it stored is one sample: the
    pointer position and the colour of the pixel at that position, both
    read in the round in which the key [.] was then seen down.  The log
    opens with the prompt and the blocking of the key, and the key is
    unblocked once, as the last call. *)
Theorem manually_pick_stores_one_sample :
  forall (fuel : nat) (self self' : IOCore.IOPixel.t) (d d' : Picker.Desk),
    Picker.manually_pick fuel (self, d) = (Done tt, (self', d')) ->
    exists (earlier : list Picker.Call) (x y : Z) (rgb : Z * Z * Z),
      let k := (List.length (Picker.made d) + 2 + List.length earlier)%nat in
      Picker.made d' =
        Picker.made d ++
        [Picker.Print ("Press `.` to select the pixel" ++ Picker.LF);
         Picker.BlockKey "."] ++
        earlier ++ Picker.round_calls x y rgb ++
        [Picker.Print (Picker.LF ++ Picker.LF); Picker.UnblockKey "."] /\
      filter Picker.is_unblock earlier = [] /\
      Picker.pointer_at d k = (x, y) /\
      Picker.pixel_at d (S k) x y = rgb /\
      Picker.pressed_at d (S (S (S k))) "." = true /\
      self' = IOCore.IOPixel.mk (Some x) (Some y) (Some rgb).
Proof.
  intros fuel self self' d d' H.
  unfold Picker.manually_pick, bind, Picker.print, Picker.block_key in H.
  cbn [fst snd] in H. apply pick_loop_returns in H.
  destruct H as (earlier & x & y & rgb & Hmade & Hnone & Hp & Hc & Hk & Hself).
  cbn [Picker.note Picker.made Picker.pointer_at Picker.pixel_at
       Picker.pressed_at] in Hmade, Hp, Hc, Hk.
  rewrite !length_app in Hp, Hc, Hk. cbn [List.length] in Hp, Hc, Hk.
  exists earlier, x, y, rgb. cbv zeta.
  replace (List.length (Picker.made d) + 2 + List.length earlier)%nat
    with (List.length (Picker.made d) + 1 + 1 + List.length earlier)%nat
    by lia.
  split.
  { rewrite Hmade. rewrite <- !app_assoc. reflexivity. }
  auto.
Qed.

Lemma manually_pick_stores_one_sample_witness :
  exists (earlier : list Picker.Call) (x y : Z) (rgb : Z * Z * Z),
    let r :=
      Picker.manually_pick 3
        (IOCore.IOPixel.init None None, MoreSamples.patient_desk) in
    let k := (List.length (Picker.made MoreSamples.patient_desk) + 2 +
              List.length earlier)%nat in
    Picker.made (snd (snd r)) =
      Picker.made MoreSamples.patient_desk ++
      [Picker.Print ("Press `.` to select the pixel" ++ Picker.LF);
       Picker.BlockKey "."] ++
      earlier ++ Picker.round_calls x y rgb ++
      [Picker.Print (Picker.LF ++ Picker.LF); Picker.UnblockKey "."] /\
    filter Picker.is_unblock earlier = [] /\
    Picker.pointer_at MoreSamples.patient_desk k = (x, y) /\
    Picker.pixel_at MoreSamples.patient_desk (S k) x y = rgb /\
    Picker.pressed_at MoreSamples.patient_desk (S (S (S k))) "." = true /\
    fst (snd r) = IOCore.IOPixel.mk (Some x) (Some y) (Some rgb).
Proof.
  apply (@manually_pick_stores_one_sample 3
           (IOCore.IOPixel.init None None)
           (fst (snd (Picker.manually_pick 3
                        (IOCore.IOPixel.init None None,
                         MoreSamples.patient_desk))))
           MoreSamples.patient_desk
           (snd (snd (Picker.manually_pick 3
                        (IOCore.IOPixel.init None None,
                         MoreSamples.patient_desk))))).
  vm_compute. reflexivity.
Defined.

(** The pick on [patient_desk]: the key is seen down in the third round. *)
Example patient_pick :
  fst (Picker.manually_pick 2
         (IOCore.IOPixel.init None None, MoreSamples.patient_desk)) =
    OutOfFuel /\
  fst (snd (Picker.manually_pick 3
              (IOCore.IOPixel.init None None, MoreSamples.patient_desk))) =
    IOCore.IOPixel.mk (Some 640%Z) (Some 360%Z) (Some (255, 128, 0)%Z) /\
  Picker.status_line 640 360 (255, 128, 0)%Z =
    (Picker.CR ++ "X: 640  Y: 360  RBG:   (255, 128, 0)")%string.
Proof. vm_compute. repeat split. Qed.

Lemma pick_loop_waits :
  forall (fuel : nat) (self : IOCore.IOPixel.t) (d : Picker.Desk),
    (forall k, Picker.pressed_at d k "." = false) ->
    let r := Picker.pick_loop fuel (self, d) in
    fst r = OutOfFuel /\
    fst (snd r) = self /\
    filter Picker.is_unblock (Picker.made (snd (snd r))) =
      filter Picker.is_unblock (Picker.made d) /\
    List.length (Picker.made (snd (snd r))) =
      (List.length (Picker.made d) + 4 * fuel)%nat.
Proof.
  induction fuel as [|fuel IH]; intros self d Hup; cbv zeta.
  - simpl. repeat split. lia.
  - rewrite pick_loop_step. cbv zeta. rewrite Hup.
    destruct (IH self
                (Picker.note (Picker.IsPressed ".")
                   (Picker.note
                      (Picker.Print
                         (Picker.status_line
                            (fst (Picker.pointer_at d
                                    (List.length (Picker.made d))))
                            (snd (Picker.pointer_at d
                                    (List.length (Picker.made d))))
                            (Picker.pixel_at d
                               (List.length
                                  (Picker.made
                                     (Picker.note Picker.Position d)))
                               (fst (Picker.pointer_at d
                                       (List.length (Picker.made d))))
                               (snd (Picker.pointer_at d
                                       (List.length (Picker.made d)))))
                          ++ ""))
                      (Picker.note
                         (Picker.Pixel
                            (fst (Picker.pointer_at d
                                    (List.length (Picker.made d))))
                            (snd (Picker.pointer_at d
                                    (List.length (Picker.made d)))))
                         (Picker.note Picker.Position d)))) Hup)
      as (Hout & Hself & Hunb & Hlen).
    split; [exact Hout|]. split; [exact Hself|]. split.
    + rewrite Hunb. cbn [Picker.note Picker.made].
      rewrite !filter_app. simpl. rewrite !app_nil_r. reflexivity.
    + rewrite Hlen. cbn [Picker.note Picker.made].
      rewrite !length_app. simpl. lia.
Qed.

(** While the key [.] is never seen down, [manually_pick] does not
    return: every round allowed is used up, four calls each, the pixel
    object stays as it was, and the key, blocked at the start, is not
    unblocked. *)
Theorem manually_pick_waits_for_the_key :
  forall (fuel : nat) (self : IOCore.IOPixel.t) (d : Picker.Desk),
    (forall k, Picker.pressed_at d k "." = false) ->
    let r := Picker.manually_pick fuel (self, d) in
    fst r = OutOfFuel /\
    fst (snd r) = self /\
    In (Picker.BlockKey ".") (Picker.made (snd (snd r))) /\
    filter Picker.is_unblock (Picker.made (snd (snd r))) =
      filter Picker.is_unblock (Picker.made d) /\
    List.length (Picker.made (snd (snd r))) =
      (List.length (Picker.made d) + 2 + 4 * fuel)%nat.
Proof.
  intros fuel self d Hup. cbv zeta.
  unfold Picker.manually_pick, bind, Picker.print, Picker.block_key.
  cbn [fst snd].
  set (d2 := Picker.note (Picker.BlockKey ".") (Picker.note _ d)).
  destruct (@pick_loop_waits fuel self d2 Hup) as (Hout & Hself & Hunb & Hlen).
  split; [exact Hout|]. split; [exact Hself|].
  split; [|split].
  - assert (Hgrow : forall (n : nat) (s0 : IOCore.IOPixel.t) (e : Picker.Desk)
                           (c : Picker.Call),
              In c (Picker.made e) ->
              In c (Picker.made (snd (snd (Picker.pick_loop n (s0, e)))))).
    { induction n as [|n IHn]; intros s0 e c Hc; [exact Hc|].
      rewrite pick_loop_step. cbv zeta.
      destruct (Picker.pressed_at e _ ".").
      - cbn [snd Picker.note Picker.made]. rewrite !in_app_iff. tauto.
      - apply IHn. cbn [Picker.note Picker.made]. rewrite !in_app_iff. tauto. }
    apply Hgrow. subst d2. cbn [Picker.note Picker.made].
    rewrite in_app_iff. simpl. tauto.
  - rewrite Hunb. subst d2. cbn [Picker.note Picker.made].
    rewrite !filter_app. simpl. rewrite !app_nil_r. reflexivity.
  - rewrite Hlen. subst d2. cbn [Picker.note Picker.made].
    rewrite !length_app. simpl. lia.
Qed.

Lemma manually_pick_waits_for_the_key_witness :
  let r :=
    Picker.manually_pick 5
      (IOCore.IOPixel.init None None, MoreSamples.idle_desk) in
  fst r = OutOfFuel /\
  fst (snd r) = IOCore.IOPixel.init None None /\
  In (Picker.BlockKey ".") (Picker.made (snd (snd r))) /\
  filter Picker.is_unblock (Picker.made (snd (snd r))) =
    filter Picker.is_unblock (Picker.made MoreSamples.idle_desk) /\
  List.length (Picker.made (snd (snd r))) =
    (List.length (Picker.made MoreSamples.idle_desk) + 2 + 4 * 5)%nat.
Proof.
  apply (@manually_pick_waits_for_the_key 5 (IOCore.IOPixel.init None None)
           MoreSamples.idle_desk).
  intros k. reflexivity.
Defined.
